(** * ProLIF [prolif/utils.py]: valence repair and mol2 residue splitting

    A shallow embedding of the two algorithms of [prolif/utils.py]:

    - [update_bonds_and_charges] (lines 14-57), the valence-based inference of
      bond orders and formal charges on an RDKit molecule;
    - the mol2 reader (lines 86-230): [get_mol2_records], [mol2_reader],
      [get_residues_from_mol2] and [residues_from_block].

    RDKit itself is not part of the repository.  What the code takes from it
    (the periodic table's valence lists, the valence perception behind
    [UpdatePropertyCache], [SanitizeMol] and the mol2 parser) are Section
    variables; concrete stand-ins are only used to run examples. *)

From Stdlib Require Import ZArith Ascii String DecimalString DecimalNat Lia.
From stdpp Require Import base tactics option list sorting gmap strings.

Local Open Scope Z_scope.

(** ** Python exceptions and results *)

Inductive exn := IndexError | ValueError | KeyError | AttributeError.

Inductive result (A : Type) :=
  | Ok (a : A)
  | Raise (e : exn).
Arguments Ok {A} a.
Arguments Raise {A} e.

#[global] Instance result_ret : MRet result := fun A a => Ok a.
#[global] Instance result_bind : MBind result := fun A B f r =>
  match r with
  | Ok a => f a
  | Raise e => Raise e
  end.

(** ** Python built-ins used by the reader *)

Module Py.

(** [str.isspace] on the code points below 256: the characters on which
    [str.split()] without argument cuts. *)
Definition isspace (c : ascii) : bool :=
  let n := N_of_ascii c in
  ((9 <=? n) && (n <=? 13) || (28 <=? n) && (n <=? 32)
   || (n =? 133) || (n =? 160))%N.

(** [s.split()]: the maximal runs of non-whitespace characters.  [cur] is the
    token being read. *)
Fixpoint split_go (cur : string) (s : string) : list string :=
  match s with
  | EmptyString => match cur with EmptyString => [] | _ => [cur] end
  | String c s' =>
      if isspace c
      then match cur with
           | EmptyString => split_go "" s'
           | _ => cur :: split_go "" s'
           end
      else split_go (cur +:+ String c "") s'
  end.

Definition split (s : string) : list string := split_go "" s.

Definition isdigit (c : ascii) : bool :=
  let n := N_of_ascii c in ((48 <=? n) && (n <=? 57))%N.

(** The digits of [int(s)]: decimal digits, single underscores allowed
    between two digits. *)
Fixpoint int_digits (acc : Z) (after_digit : bool) (s : string) : option Z :=
  match s with
  | EmptyString => if after_digit then Some acc else None
  | String c s' =>
      if Ascii.eqb c "_"
      then (if after_digit then int_digits acc false s' else None)
      else if isdigit c
           then int_digits (10 * acc + (Z.of_N (N_of_ascii c) - 48)) true s'
           else None
  end.

(** [int(s)] for a token [s] of [split] (no surrounding whitespace):
    an optional sign and the digits; [ValueError] otherwise. *)
Definition int (s : string) : result Z :=
  let r := match s with
           | String "-" s' => Z.opp <$> int_digits 0 false s'
           | String "+" s' => int_digits 0 false s'
           | _ => int_digits 0 false s
           end in
  match r with Some z => Ok z | None => Raise ValueError end.

(** [str(n)] for a natural number. *)
Definition str (n : nat) : string := NilZero.string_of_uint (Nat.to_uint n).

(** [re.search(pat, s)] for a pattern without metacharacters: [pat] occurs
    in [s]. *)
Fixpoint search (pat s : string) : bool :=
  if String.prefix pat s then true
  else match s with
       | EmptyString => false
       | String _ s' => search pat s'
       end.

(** [l[i]], negative indices counting from the end. *)
Definition getitem {A} (l : list A) (i : Z) : result A :=
  let n := Z.of_nat (length l) in
  let j := if i <? 0 then i + n else i in
  if (j <? 0) || (n <=? j) then Raise IndexError
  else match l !! Z.to_nat j with
       | Some x => Ok x
       | None => Raise IndexError
       end.

(** The bound of a slice, clipped as [slice.indices] does. *)
Definition clip (n i : Z) : Z :=
  if i <? 0 then Z.max (i + n) 0 else Z.min i n.

(** [l[start:stop]]. *)
Definition slice {A} (l : list A) (start stop : Z) : list A :=
  let n := Z.of_nat (length l) in
  let a := clip n start in
  let b := clip n stop in
  take (Z.to_nat (b - a)) (drop (Z.to_nat a) l).

(** [s[n:]] on a string, for [n >= 0]. *)
Fixpoint str_from (n : nat) (s : string) : string :=
  match n, s with
  | O, _ => s
  | S n', String _ s' => str_from n' s'
  | S _, EmptyString => EmptyString
  end.

(** [''.join(l)]. *)
Definition join (l : list string) : string := foldr String.append "" l.

(** [f.readlines()]: the lines of a text, each with its newline. *)
Fixpoint readlines_go (cur : string) (s : string) : list string :=
  match s with
  | EmptyString => match cur with EmptyString => [] | _ => [cur] end
  | String c s' =>
      if Ascii.eqb c "010"
      then (cur +:+ String c "") :: readlines_go "" s'
      else readlines_go (cur +:+ String c "") s'
  end.

Definition readlines (text : string) : list string := readlines_go "" text.

(** [enumerate(l)]. *)
Definition enumerate {A} (l : list A) : list (nat * A) := imap pair l.

End Py.

(** ** The mol2 reader *)

(** A molecule as the RDKit parser returns it: the parsed contents, opaque
    here, and the string properties set on it ([SetProp]). *)
Record RDMol (M : Type) := mkRDMol {
  mol_data : M;
  mol_props : gmap string string
}.
Arguments mkRDMol {M} _ _.
Arguments mol_data {M} _.
Arguments mol_props {M} _.

Definition SetProp {M} (m : RDMol M) (key val : string) : RDMol M :=
  mkRDMol (mol_data m) (<[key := val]> (mol_props m)).

Definition GetProp {M} (m : RDMol M) (key : string) : option string :=
  mol_props m !! key.

Definition nl : string := String "010" "".

(** [d[k]] on a dict: [KeyError] when the key is absent. *)
Definition dict_get {V} (d : gmap string V) (k : string) : result V :=
  match d !! k with
  | Some v => Ok v
  | None => Raise KeyError
  end.

(** [zip] of three lists stops at the end of the shortest. *)
Fixpoint zip3 {A B C} (la : list A) (lb : list B) (lc : list C)
  : list (A * B * C) :=
  match la, lb, lc with
  | a :: la', b :: lb', c :: lc' => (a, b, c) :: zip3 la' lb' lc'
  | _, _, _ => []
  end.

Section Mol2.
Context {M : Type}.

(** [Chem.MolFromMol2Block block sanitize removeHs]: [None] when RDKit
    cannot build a molecule from the block. *)
Variable MolFromMol2Block : string -> bool -> bool -> option (RDMol M).

(** The order in which a Python [set] built from a list of strings is
    iterated (it depends on the hash seed of the process). *)
Variable set_iter : list string -> list string.

(** Lines 86-108. *)
Definition get_mol2_records (lines : list string)
  : list nat * list nat * list nat :=
  foldl (fun acc il =>
           let '(mol_lines, first_atom_lines, first_bond_lines) := acc in
           let '(i, line) := il in
           if Py.search "@<TRIPOS>MOLECULE" line
           then (mol_lines ++ [i], first_atom_lines, first_bond_lines)
           else if Py.search "@<TRIPOS>ATOM" line
           then (mol_lines, first_atom_lines ++ [i], first_bond_lines)
           else if Py.search "@<TRIPOS>BOND" line
           then (mol_lines, first_atom_lines, first_bond_lines ++ [i])
           else acc)
        ([], [], []) (Py.enumerate lines).

(** Lines 136-138 and 157-159: the two counts of the molecule record. *)
Definition read_counts (lines : list string) (mol_line : Z) : result (Z * Z) :=
  header ← Py.getitem lines (mol_line + 2);
  let data := Py.split header in
  d0 ← Py.getitem data 0;
  num_atoms ← Py.int d0;
  d1 ← Py.getitem data 1;
  num_bonds ← Py.int d1;
  mret (num_atoms, num_bonds).

(** Line 162: the residue name of every atom line, in file order. *)
Fixpoint resnames_of (atom_lines : list string) : result (list string) :=
  match atom_lines with
  | [] => Ok []
  | line :: rest =>
      name ← Py.getitem (Py.split line) 7;
      names ← resnames_of rest;
      mret (name :: names)
  end.

(** Lines 167-168 and 179-180: one empty bucket per residue name. *)
Definition empty_buckets (resnames : list string) : gmap string (list string) :=
  foldl (fun d resname => <[resname := []]> d) ∅ resnames.

(** Lines 170-175. *)
Fixpoint assign_atoms (atom_lines : list string)
    (atoms : gmap string (list string)) (map_id_to_res : gmap string string)
  : result (gmap string (list string) * gmap string string) :=
  match atom_lines with
  | [] => Ok (atoms, map_id_to_res)
  | line :: rest =>
      let data := Py.split line in
      atom_id ← Py.getitem data 0;
      resname ← Py.getitem data 7;
      bucket ← dict_get atoms resname;
      assign_atoms rest (<[resname := bucket ++ [line]]> atoms)
                   (<[atom_id := resname]> map_id_to_res)
  end.

(** Lines 182-189. *)
Fixpoint assign_bonds (bond_lines : list string)
    (map_id_to_res : gmap string string) (bonds : gmap string (list string))
  : result (gmap string (list string)) :=
  match bond_lines with
  | [] => Ok bonds
  | line :: rest =>
      let data := Py.split line in
      atom1 ← Py.getitem data 1;
      atom2 ← Py.getitem data 2;
      res1 ← dict_get map_id_to_res atom1;
      res2 ← dict_get map_id_to_res atom2;
      if String.eqb res1 res2
      then bucket ← dict_get bonds res1;
           assign_bonds rest map_id_to_res (<[res1 := bucket ++ [line]]> bonds)
      else assign_bonds rest map_id_to_res bonds
  end.

(** Lines 197-201: [i] is the index of the first line of [atom_lines]. *)
Fixpoint renumber_atoms (i : nat) (atom_lines : list string)
    (map_atoms : gmap string nat) (new_atoms : list string)
  : result (gmap string nat * list string) :=
  match atom_lines with
  | [] => Ok (map_atoms, new_atoms)
  | line :: rest =>
      atom_id ← Py.getitem (Py.split line) 0;
      let new_line := Py.str (i + 1) +:+ Py.str_from (String.length atom_id) line in
      renumber_atoms (S i) rest (<[atom_id := (i + 1)%nat]> map_atoms)
                     (new_atoms ++ [new_line])
  end.

(** Lines 202-208. *)
Fixpoint renumber_bonds (i : nat) (bond_lines : list string)
    (map_atoms : gmap string nat) (new_bonds : list string)
  : result (list string) :=
  match bond_lines with
  | [] => Ok new_bonds
  | line :: rest =>
      let data := Py.split line in
      atom1 ← Py.getitem data 1;
      atom2 ← Py.getitem data 2;
      bond_type ← Py.getitem data 3;
      id1 ← dict_get map_atoms atom1;
      id2 ← dict_get map_atoms atom2;
      let new_line := Py.str (i + 1) +:+ " " +:+ Py.str id1 +:+ " "
                      +:+ Py.str id2 +:+ " " +:+ bond_type +:+ nl in
      renumber_bonds (S i) rest map_atoms (new_bonds ++ [new_line])
  end.

(** Lines 210-225: the text handed to the parser. *)
Definition residue_mol2_block (resname : string)
    (new_atoms new_bonds : list string) : string :=
  "@<TRIPOS>MOLECULE" +:+ nl +:+
  resname +:+ nl +:+
  Py.str (length new_atoms) +:+ " " +:+ Py.str (length new_bonds) +:+ nl +:+
  "SMALL" +:+ nl +:+
  "USER_CHARGES" +:+ nl +:+
  "@<TRIPOS>ATOM" +:+ nl +:+
  Py.join new_atoms +:+
  "@<TRIPOS>BOND" +:+ nl +:+
  Py.join new_bonds.

(** Lines 192-229: the loop over the residue names. *)
Fixpoint build_residues (resnames : list string)
    (atoms bonds : gmap string (list string)) (ignoreH : bool)
    (residues : list (RDMol M)) : result (list (RDMol M)) :=
  match resnames with
  | [] => Ok residues
  | resname :: rest =>
      atom_lines ← dict_get atoms resname;
      '(map_atoms, new_atoms) ← renumber_atoms 0 atom_lines ∅ [];
      bond_lines ← dict_get bonds resname;
      new_bonds ← renumber_bonds 0 bond_lines map_atoms [];
      let block := residue_mol2_block resname new_atoms new_bonds in
      match MolFromMol2Block block true ignoreH with
      | Some residue =>
          build_residues rest atoms bonds ignoreH
                         (residues ++ [SetProp residue "resname" resname])
      | None => build_residues rest atoms bonds ignoreH residues
      end
  end.

(** Lines 146-230. *)
Definition residues_from_block (block : list string) (ignoreH : bool)
  : result (list (RDMol M)) :=
  let '(mol_lines, first_atom_lines, first_bond_lines) :=
    get_mol2_records block in
  mol_line ← Py.getitem mol_lines 0;
  first_atom_line ← Py.getitem first_atom_lines 0;
  first_bond_line ← Py.getitem first_bond_lines 0;
  '(num_atoms, num_bonds) ← read_counts block (Z.of_nat mol_line);
  let atom_lines :=
    Py.slice block (Z.of_nat first_atom_line + 1)
             (Z.of_nat first_atom_line + num_atoms + 1) in
  names ← resnames_of atom_lines;
  let resnames := set_iter names in
  '(atoms, map_id_to_res) ←
    assign_atoms atom_lines (empty_buckets resnames) ∅;
  let bond_lines :=
    Py.slice block (Z.of_nat first_bond_line + 1)
             (Z.of_nat first_bond_line + num_bonds + 1) in
  bonds ← assign_bonds bond_lines map_id_to_res (empty_buckets resnames);
  build_residues resnames atoms bonds ignoreH [].

(** Lines 153-162 on their own: what [residues_from_block] reads from the
    block before it groups the lines (the starts of the atom and bond
    records, the two counts, the residue name of every atom line). *)
Definition block_header (block : list string)
  : result (nat * nat * Z * Z * list string) :=
  let '(mol_lines, first_atom_lines, first_bond_lines) :=
    get_mol2_records block in
  mol_line ← Py.getitem mol_lines 0;
  first_atom_line ← Py.getitem first_atom_lines 0;
  first_bond_line ← Py.getitem first_bond_lines 0;
  '(num_atoms, num_bonds) ← read_counts block (Z.of_nat mol_line);
  names ← resnames_of (Py.slice block (Z.of_nat first_atom_line + 1)
                                (Z.of_nat first_atom_line + num_atoms + 1));
  mret (first_atom_line, first_bond_line, num_atoms, num_bonds, names).

(** Lines 164-229 on their own, from what [block_header] has read. *)
Definition group_and_build (block : list string) (ignoreH : bool)
    (header : nat * nat * Z * Z * list string) : result (list (RDMol M)) :=
  let '(first_atom_line, first_bond_line, num_atoms, num_bonds, names) :=
    header in
  let resnames := set_iter names in
  '(atoms, map_id_to_res) ←
    assign_atoms (Py.slice block (Z.of_nat first_atom_line + 1)
                           (Z.of_nat first_atom_line + num_atoms + 1))
                 (empty_buckets resnames) ∅;
  bonds ← assign_bonds (Py.slice block (Z.of_nat first_bond_line + 1)
                                 (Z.of_nat first_bond_line + num_bonds + 1))
                       map_id_to_res (empty_buckets resnames);
  build_residues resnames atoms bonds ignoreH [].

(** Lines 226-229 on a block [r] as the splitter synthesized it ([r] holds
    the text and the residue name): the parsed molecule, tagged, or nothing. *)
Definition parse_and_tag (ignoreH : bool) (r : RDMol string)
  : option (RDMol M) :=
  (fun residue => SetProp residue "resname" (default "" (GetProp r "resname")))
    <$> MolFromMol2Block (mol_data r) true ignoreH.

(** Lines 193-225 on their own: the text that the loop synthesizes for the
    residue name [resname], from the bucket of its atom lines and the bucket
    of its bond lines. *)
Definition residue_block (atoms bonds : gmap string (list string))
    (resname : string) : result string :=
  atom_lines ← dict_get atoms resname;
  '(map_atoms, new_atoms) ← renumber_atoms 0 atom_lines ∅ [];
  bond_lines ← dict_get bonds resname;
  new_bonds ← renumber_bonds 0 bond_lines map_atoms [];
  mret (residue_mol2_block resname new_atoms new_bonds).

(** Lines 226-229 for the text synthesized for [resname]: the parsed
    molecule, tagged with [resname], or nothing. *)
Definition parse_residue (ignoreH : bool) (resname text : string)
  : option (RDMol M) :=
  (fun residue => SetProp residue "resname" resname)
    <$> MolFromMol2Block text true ignoreH.

(** Lines 129-143.  [first_bond_line] is received and not used. *)
Definition get_residues_from_mol2 (mol_line first_atom_line first_bond_line : Z)
    (lines : list string) (ignoreH : bool) : result (list (RDMol M)) :=
  '(num_atoms, num_bonds) ← read_counts lines mol_line;
  let block :=
    Py.slice lines mol_line
             (mol_line + first_atom_line - mol_line + num_atoms + 1
              + num_bonds + 1) in
  residues_from_block block ignoreH.

(** Lines 123-125: the loop over the zipped record indices. *)
Fixpoint read_molecules (records : list (nat * nat * nat))
    (lines : list string) (ignoreH : bool) (molecules : list (RDMol M))
  : result (list (RDMol M)) :=
  match records with
  | [] => Ok molecules
  | (mol_line, first_atom_line, first_bond_line) :: rest =>
      residues ← get_residues_from_mol2 (Z.of_nat mol_line)
                   (Z.of_nat first_atom_line) (Z.of_nat first_bond_line)
                   lines ignoreH;
      read_molecules rest lines ignoreH (molecules ++ residues)
  end.

(** Lines 111-126, from the text of the file. *)
Definition mol2_reader (mol2_text : string) (ignoreH : bool)
  : result (list (RDMol M)) :=
  let lines := Py.readlines mol2_text in
  let '(mol_lines, first_atom_lines, first_bond_lines) :=
    get_mol2_records lines in
  read_molecules (zip3 mol_lines first_atom_lines first_bond_lines)
                 lines ignoreH [].

End Mol2.

(** A parser that accepts every block and keeps its text, to look at what
    the splitter hands to RDKit. *)
Definition text_parser (block : string) (sanitize removeHs : bool)
  : option (RDMol string) :=
  Some (mkRDMol block ∅).

(** Set iteration in order of first insertion (one of the possible orders). *)
Definition first_seen (l : list string) : list string := remove_dups l.

(** The two-residue block of the specification: LIG1 with the atoms 5, 6, 7
    and the bond 5-6, WAT1 with the atoms 9, 10 and the bond 9-10, and the
    bond 7-9 between the residues.  Every atom line starts with its id. *)
Definition ex_block : string :=
"@<TRIPOS>MOLECULE
complex
5 3
SMALL
USER_CHARGES
@<TRIPOS>ATOM
5 C1 0.0 0.0 0.0 C.3 1 LIG1 0.0
6 C2 1.5 0.0 0.0 C.3 1 LIG1 0.0
7 O1 2.0 1.0 0.0 O.3 1 LIG1 0.0
9 O 4.0 1.0 0.0 O.3 2 WAT1 0.0
10 H1 4.5 1.5 0.0 H 2 WAT1 0.0
@<TRIPOS>BOND
1 5 6 1
2 7 9 1
3 9 10 1
".

(** The two blocks expected from [ex_block]. *)
Definition LIG1_block : string :=
"@<TRIPOS>MOLECULE
LIG1
3 1
SMALL
USER_CHARGES
@<TRIPOS>ATOM
1 C1 0.0 0.0 0.0 C.3 1 LIG1 0.0
2 C2 1.5 0.0 0.0 C.3 1 LIG1 0.0
3 O1 2.0 1.0 0.0 O.3 1 LIG1 0.0
@<TRIPOS>BOND
1 1 2 1
".

Definition WAT1_block : string :=
"@<TRIPOS>MOLECULE
WAT1
2 1
SMALL
USER_CHARGES
@<TRIPOS>ATOM
1 O 4.0 1.0 0.0 O.3 2 WAT1 0.0
2 H1 4.5 1.5 0.0 H 2 WAT1 0.0
@<TRIPOS>BOND
1 1 2 1
".

(** A block as the splitter hands it to the parser, seen through
    [text_parser]: the text, tagged with the residue name. *)
Definition handed (resname text : string) : RDMol string :=
  SetProp (mkRDMol text ∅) "resname" resname.

(** The fields of every line of a text. *)
Definition tokens (text : string) : list (list string) :=
  map Py.split (Py.readlines text).

(** A parser that refuses the blocks of water residues and keeps the text of
    the others. *)
Definition no_water_parser (block : string) (sanitize removeHs : bool)
  : option (RDMol string) :=
  if Py.search "WAT" block then None else Some (mkRDMol block ∅).

(** A file whose molecule record announces 2 atoms and 5 bonds and which
    ends after the first bond line. *)
Definition short_file : string :=
"@<TRIPOS>MOLECULE
m
2 5
SMALL
USER_CHARGES
@<TRIPOS>ATOM
1 C1 0.0 0.0 0.0 C.3 1 LIG1 0.0
2 C2 1.5 0.0 0.0 C.3 1 LIG1 0.0
@<TRIPOS>BOND
1 1 2 1
".

Definition short_file_block : string :=
"@<TRIPOS>MOLECULE
LIG1
2 1
SMALL
USER_CHARGES
@<TRIPOS>ATOM
1 C1 0.0 0.0 0.0 C.3 1 LIG1 0.0
2 C2 1.5 0.0 0.0 C.3 1 LIG1 0.0
@<TRIPOS>BOND
1 1 2 1
".

(** A file with two molecules; the second one has no BOND record. *)
Definition no_bond_record_file : string :=
"@<TRIPOS>MOLECULE
m1
1 0
SMALL
USER_CHARGES
@<TRIPOS>ATOM
1 C1 0.0 0.0 0.0 C.3 1 LIG1 0.0
@<TRIPOS>BOND
@<TRIPOS>MOLECULE
m2
1 0
SMALL
USER_CHARGES
@<TRIPOS>ATOM
1 C1 0.0 0.0 0.0 C.3 1 LIG2 0.0
".

Definition no_bond_record_block : string :=
"@<TRIPOS>MOLECULE
LIG1
1 0
SMALL
USER_CHARGES
@<TRIPOS>ATOM
1 C1 0.0 0.0 0.0 C.3 1 LIG1 0.0
@<TRIPOS>BOND
".

(** A block whose atom lines start with blanks, as right-aligned mol2 files
    have them: one blank before id 5, two blanks before id 6. *)
Definition indented_block : string :=
"@<TRIPOS>MOLECULE
lig
2 1
SMALL
USER_CHARGES
@<TRIPOS>ATOM
 5 C1 0.0 0.0 0.0 C.3 1 LIG1 0.0
  6 C2 1.5 0.0 0.0 C.3 1 LIG1 0.0
@<TRIPOS>BOND
1 5 6 1
".


(** A line that starts with its first field: a non-empty run of
    non-blank characters, followed by nothing or by a blank. *)
Fixpoint no_blank (s : string) : bool :=
  match s with
  | EmptyString => true
  | String c s' => negb (Py.isspace c) && no_blank s'
  end.

Definition blank_start (s : string) : bool :=
  match s with
  | EmptyString => true
  | String c _ => Py.isspace c
  end.

Definition flush_left (line : string) : Prop :=
  exists id rest, line = id +:+ rest /\ id <> "" /\ no_blank id = true
                  /\ blank_start rest = true.

(** A molecule without BOND record. *)
Definition no_bond_text : string :=
"@<TRIPOS>MOLECULE
m2
1 0
SMALL
USER_CHARGES
@<TRIPOS>ATOM
1 C1 0.0 0.0 0.0 C.3 1 LIG2 0.0
".

(** A file whose second molecule announces its counts with a word. *)
Definition bad_count_file : string :=
"@<TRIPOS>MOLECULE
m1
1 0
SMALL
USER_CHARGES
@<TRIPOS>ATOM
1 C1 0.0 0.0 0.0 C.3 1 LIG1 0.0
@<TRIPOS>BOND
@<TRIPOS>MOLECULE
m2
one 0
SMALL
USER_CHARGES
@<TRIPOS>ATOM
1 C1 0.0 0.0 0.0 C.3 1 LIG2 0.0
@<TRIPOS>BOND
".

(** A file with two molecules of one residue each. *)
Definition two_molecules_file : string :=
"@<TRIPOS>MOLECULE
m1
1 0
SMALL
USER_CHARGES
@<TRIPOS>ATOM
1 C1 0.0 0.0 0.0 C.3 1 LIG1 0.0
@<TRIPOS>BOND
@<TRIPOS>MOLECULE
m2
1 0
SMALL
USER_CHARGES
@<TRIPOS>ATOM
1 C1 0.0 0.0 0.0 C.3 1 LIG2 0.0
@<TRIPOS>BOND
".

Definition LIG2_block : string :=
"@<TRIPOS>MOLECULE
LIG2
1 0
SMALL
USER_CHARGES
@<TRIPOS>ATOM
1 C1 0.0 0.0 0.0 C.3 1 LIG2 0.0
@<TRIPOS>BOND
".

(** The atom lines and the bond lines of [ex_block], and its id map. *)
Definition ex_atom_lines : list string :=
  Py.slice (Py.readlines ex_block) 6 11.

Definition ex_bond_lines : list string :=
  Py.slice (Py.readlines ex_block) 12 15.

Definition ex_map_id_to_res : gmap string string :=
  list_to_map [("5", "LIG1"); ("6", "LIG1"); ("7", "LIG1");
               ("9", "WAT1"); ("10", "WAT1")].

(** What the splitter makes of [indented_block]. *)
Definition indented_result : string :=
"@<TRIPOS>MOLECULE
LIG1
2 1
SMALL
USER_CHARGES
@<TRIPOS>ATOM
15 C1 0.0 0.0 0.0 C.3 1 LIG1 0.0
2 6 C2 1.5 0.0 0.0 C.3 1 LIG1 0.0
@<TRIPOS>BOND
1 1 2 1
".

(** The buckets that the splitter fills from [ex_block]. *)
Definition ex_atoms : gmap string (list string) :=
  list_to_map [("LIG1", Py.slice (Py.readlines ex_block) 6 9);
               ("WAT1", Py.slice (Py.readlines ex_block) 9 11)].

Definition ex_bonds : gmap string (list string) :=
  list_to_map [("LIG1", Py.slice (Py.readlines ex_block) 12 13);
               ("WAT1", Py.slice (Py.readlines ex_block) 14 15)].

(** The two-residue block of the specification with the atom ids
    right-aligned in a column of two characters, as mol2 writers lay them
    out: the fields of every line are those of [ex_block]. *)
Definition ex_block_right_aligned : string :=
"@<TRIPOS>MOLECULE
complex
5 3
SMALL
USER_CHARGES
@<TRIPOS>ATOM
 5 C1 0.0 0.0 0.0 C.3 1 LIG1 0.0
 6 C2 1.5 0.0 0.0 C.3 1 LIG1 0.0
 7 O1 2.0 1.0 0.0 O.3 1 LIG1 0.0
 9 O 4.0 1.0 0.0 O.3 2 WAT1 0.0
10 H1 4.5 1.5 0.0 H 2 WAT1 0.0
@<TRIPOS>BOND
1 5 6 1
2 7 9 1
3 9 10 1
".

(** What the splitter makes of [ex_block_right_aligned]. *)
Definition LIG1_right_aligned_result : string :=
"@<TRIPOS>MOLECULE
LIG1
3 1
SMALL
USER_CHARGES
@<TRIPOS>ATOM
15 C1 0.0 0.0 0.0 C.3 1 LIG1 0.0
26 C2 1.5 0.0 0.0 C.3 1 LIG1 0.0
37 O1 2.0 1.0 0.0 O.3 1 LIG1 0.0
@<TRIPOS>BOND
1 1 2 1
".

Definition WAT1_right_aligned_result : string :=
"@<TRIPOS>MOLECULE
WAT1
2 1
SMALL
USER_CHARGES
@<TRIPOS>ATOM
19 O 4.0 1.0 0.0 O.3 2 WAT1 0.0
2 H1 4.5 1.5 0.0 H 2 WAT1 0.0
@<TRIPOS>BOND
1 1 2 1
".

(** ** What the reader sees in a line *)

Inductive record := MOLECULE | ATOM | BOND.

#[global] Instance record_eq_dec : EqDecision record.
Proof. solve_decision. Defined.

(** The record that a line starts, as lines 94-106 decide it: the first of
    the markers MOLECULE, ATOM, BOND that occurs in the line. *)
Definition marker_of (line : string) : option record :=
  if Py.search "@<TRIPOS>MOLECULE" line then Some MOLECULE
  else if Py.search "@<TRIPOS>ATOM" line then Some ATOM
  else if Py.search "@<TRIPOS>BOND" line then Some BOND
  else None.

(** The indices of the lines that start a record of kind [r], in order. *)
Definition scanned (r : record) (lines : list string) (found : list nat) : Prop :=
  (forall i, i ∈ found <->
     exists line, lines !! i = Some line /\ marker_of line = Some r)
  /\ StronglySorted lt found.

(** The residue that an atom line names: its 8th field. *)
Definition residue_of_line (line : string) : option string :=
  Py.split line !! 7%nat.

(** The residue in which a bond line stays: the residue of both its atoms,
    when they have the same. *)
Definition residue_of_bond (map_id_to_res : gmap string string)
    (line : string) : option string :=
  atom1 ← Py.split line !! 1%nat;
  atom2 ← Py.split line !! 2%nat;
  res1 ← map_id_to_res !! atom1;
  res2 ← map_id_to_res !! atom2;
  if String.eqb res1 res2 then Some res1 else None.

Fixpoint no_newline (s : string) : bool :=
  match s with
  | EmptyString => true
  | String c s' => negb (Ascii.eqb c "010") && no_newline s'
  end.

(** ** The residue number *)

(** The longest run of digits at the start of a string. *)
Fixpoint digits_prefix (s : string) : string :=
  match s with
  | EmptyString => ""
  | String c s' => if Py.isdigit c then String c (digits_prefix s') else ""
  end.

(** [re.search(r'(\d+)', s)] followed by [.group(0)]: the first run of
    digits of [s], as long as it gets; [None] when [s] has no digit.  The
    strings here hold code points below 256, where the decimal digits that
    [\d] matches are [0] to [9]. *)
Fixpoint search_digits (s : string) : option string :=
  match s with
  | EmptyString => None
  | String c s' =>
      if Py.isdigit c then Some (String c (digits_prefix s'))
      else search_digits s'
  end.

(** The default of [sys.int_max_str_digits]: [int()] refuses a decimal
    writing with more digits. *)
Definition int_max_str_digits : nat := 4300.

(** [int(s)] under the interpreter's limit on the number of digits of [s]
    (underscores are not counted): beyond it, [ValueError]. *)
Definition int_within_limit (s : string) : result Z :=
  if (int_max_str_digits
        <? length (filter (fun c => Py.isdigit c = true)
                          (list_ascii_of_string s)))%nat
  then Raise ValueError
  else Py.int s.

(** Lines 60-62.  Without a match [pattern] is [None] and [pattern.group]
    raises [AttributeError]; [int] raises [ValueError] on a run of more
    than [int_max_str_digits] digits. *)
Definition get_resnumber (resname : string) : result Z :=
  match search_digits resname with
  | Some group => int_within_limit group
  | None => Raise AttributeError
  end.

Fixpoint no_digit (s : string) : bool :=
  match s with
  | EmptyString => true
  | String c s' => negb (Py.isdigit c) && no_digit s'
  end.

Definition digit_start (s : string) : bool :=
  match s with
  | EmptyString => false
  | String c _ => Py.isdigit c
  end.

Fixpoint all_digits (s : string) : bool :=
  match s with
  | EmptyString => true
  | String c s' => Py.isdigit c && all_digits s'
  end.

(** ** The valence repair engine *)

(** The bond types the module names ([BONDTYPE_TO_RDKIT], lines 7-12). *)
Inductive BondType := SINGLE | DOUBLE | TRIPLE | AROMATIC.

#[global] Instance BondType_eq_dec : EqDecision BondType.
Proof. solve_decision. Defined.

(** Twice the bond order of RDKit's [GetBondTypeAsDouble] (aromatic is 1.5). *)
Definition order2 (t : BondType) : Z :=
  match t with
  | SINGLE => 2
  | AROMATIC => 3
  | DOUBLE => 4
  | TRIPLE => 6
  end.

Record Atom := mkAtom {
  AtomicNum : Z;
  FormalCharge : Z;
  (** the cached value that [GetTotalValence] returns *)
  TotalValence : Z
}.

Record Bond := mkBond {
  BeginAtomIdx : nat;
  EndAtomIdx : nat;
  Type_ : BondType
}.

Record Mol := mkMol {
  atoms : list Atom;
  bonds : list Bond
}.

(** How a call leaves the molecule it mutates in place: returned normally,
    or an exception raised with the molecule as mutated so far. *)
Inductive outcome :=
  | Returned (m : Mol)
  | Raised (e : exn) (m : Mol).

Definition final (o : outcome) : Mol :=
  match o with
  | Returned m => m
  | Raised _ m => m
  end.

Definition GetAtomicNum (m : Mol) (a : nat) : Z :=
  from_option AtomicNum 0 (atoms m !! a).

Definition GetTotalValence (m : Mol) (a : nat) : Z :=
  from_option TotalValence 0 (atoms m !! a).

Definition GetFormalCharge (m : Mol) (a : nat) : Z :=
  from_option FormalCharge 0 (atoms m !! a).

Definition SetFormalCharge (m : Mol) (a : nat) (charge : Z) : Mol :=
  mkMol (alter (fun x => mkAtom (AtomicNum x) charge (TotalValence x)) a (atoms m))
        (bonds m).

Definition SetBondType (m : Mol) (b : nat) (t : BondType) : Mol :=
  mkMol (atoms m)
        (alter (fun x => mkBond (BeginAtomIdx x) (EndAtomIdx x) t) b (bonds m)).

(** [atom.GetNeighbors()]: the other end of every bond of the atom, in the
    order of the bonds. *)
Definition other_end (a : nat) (b : Bond) : option nat :=
  if (BeginAtomIdx b =? a)%nat then Some (EndAtomIdx b)
  else if (EndAtomIdx b =? a)%nat then Some (BeginAtomIdx b)
  else None.

Definition GetNeighbors (m : Mol) (a : nat) : list nat :=
  omap (other_end a) (bonds m).

Definition joins (a n : nat) (b : Bond) : bool :=
  ((BeginAtomIdx b =? a)%nat && (EndAtomIdx b =? n)%nat)
  || ((BeginAtomIdx b =? n)%nat && (EndAtomIdx b =? a)%nat).

(** [mol.GetBondBetweenAtoms(a, n)]: the index of the bond, [None] when the
    atoms are not bonded. *)
Definition GetBondBetweenAtoms (m : Mol) (a n : nat) : option nat :=
  fst <$> list_find (fun b => joins a n b = true) (bonds m).

(** [min(l, default=nan)]: [None] stands for [nan]. *)
Definition py_min (l : list Z) : option Z :=
  foldr (fun x acc => Some (match acc with
                            | None => x
                            | Some y => Z.min x y
                            end)) None l.

(** Line 40: [min(set_electrons.intersection(na_electrons), default=np.nan)]. *)
Definition common_electrons (electrons na_electrons : list Z) : option Z :=
  py_min (filter (fun e => e ∈ na_electrons) electrons).

(** The value that the specification names for a compatible neighbor: the
    smallest positive common deficit.  It follows the words of the
    specification, to be compared with [common_electrons]. *)
Definition min_positive (l : list Z) : option Z :=
  py_min (filter (fun e => 0 < e) l).

(** Same bonded pairs in the same order; every bond keeps its type or has
    become DOUBLE or TRIPLE. *)
Definition retyped (b b' : Bond) : Prop :=
  BeginAtomIdx b' = BeginAtomIdx b /\ EndAtomIdx b' = EndAtomIdx b
  /\ (Type_ b' = Type_ b \/ Type_ b' = DOUBLE \/ Type_ b' = TRIPLE).

Definition same_graph (m m' : Mol) : Prop :=
  length (atoms m') = length (atoms m) /\ Forall2 retyped (bonds m) (bonds m').

(** The bonds of an RDKit molecule join atoms of the molecule. *)
Definition bonds_in_range (m : Mol) : Prop :=
  forall b, b ∈ bonds m ->
    (BeginAtomIdx b < length (atoms m))%nat
    /\ (EndAtomIdx b < length (atoms m))%nat.

Section Repair.

(** [PERIODIC_TABLE.GetValenceList]. *)
Variable GetValenceList : Z -> list Z.

(** The total valence that RDKit perceives for an atom of a molecule. *)
Variable perceive_valence : Mol -> nat -> Z.

(** [Chem.SanitizeMol]. *)
Variable SanitizeMol : Mol -> outcome.

(** [mol.UpdatePropertyCache(strict=False)]: every cached valence is
    recomputed from the molecule. *)
Definition UpdatePropertyCache (m : Mol) : Mol :=
  mkMol (imap (fun i x => mkAtom (AtomicNum x) (FormalCharge x)
                                 (perceive_valence m i)) (atoms m))
        (bonds m).

(** Lines 20-22 and 37-39. *)
Definition electrons_of (m : Mol) (a : nat) : list Z :=
  let vtot := GetTotalValence m a in
  let valences := GetValenceList (GetAtomicNum m a) in
  map (fun v => v - vtot) valences.

(** Lines 50-55: the bond between the two atoms is retyped when the common
    value is 1 or 2; the cache is refreshed in every case. *)
Definition upgrade_bond (m : Mol) (a na : nat) (k : Z) : outcome :=
  let bond := GetBondBetweenAtoms m a na in
  if k =? 1 then
    match bond with
    | Some b => Returned (UpdatePropertyCache (SetBondType m b DOUBLE))
    | None => Raised AttributeError m
    end
  else if k =? 2 then
    match bond with
    | Some b => Returned (UpdatePropertyCache (SetBondType m b TRIPLE))
    | None => Raised AttributeError m
    end
  else Returned (UpdatePropertyCache m).

(** Lines 36-56: the loop over the neighbors; [i] is the 1-based position
    of the head of [rest], [len_neighbors] is [len(neighbors)]. *)
Fixpoint neighbors_loop (m : Mol) (a : nat) (electrons : list Z)
    (len_neighbors i : nat) (rest : list nat) : outcome :=
  match rest with
  | [] => Returned m
  | na :: rest' =>
      let na_electrons := electrons_of m na in
      match common_electrons electrons na_electrons with
      | None =>
          if (i =? len_neighbors)%nat
          then match electrons with
               | e0 :: _ =>
                   let charge := - e0 in
                   neighbors_loop (UpdatePropertyCache (SetFormalCharge m a charge))
                                  a electrons len_neighbors (S i) rest'
               | [] => Raised IndexError m
               end
          else neighbors_loop m a electrons len_neighbors (S i) rest'
      | Some k =>
          if k =? 0
          then neighbors_loop m a electrons len_neighbors (S i) rest'
          else upgrade_bond m a na k
      end
  end.

(** Lines 20-56: the body of the loop over the atoms. *)
Definition process_atom (m : Mol) (a : nat) : outcome :=
  let electrons := electrons_of m a in
  if (length electrons =? 1)%nat && (hd 0 electrons <? 0)
  then
    let charge := - hd 0 electrons in
    Returned (UpdatePropertyCache (SetFormalCharge m a charge))
  else
    let neighbors := GetNeighbors m a in
    neighbors_loop m a electrons (length neighbors) 1 neighbors.

(** The guard of line 28, as the code evaluates it. *)
Definition only_positive_charge (m : Mol) (a : nat) : bool :=
  (length (electrons_of m a) =? 1)%nat && (hd 0 (electrons_of m a) <? 0).

(** A neighbor on which the loop does nothing and goes on: the smallest
    common value is 0, or there is no common value. *)
Definition passed_over (m : Mol) (a p : nat) : Prop :=
  common_electrons (electrons_of m a) (electrons_of m p) = None
  \/ common_electrons (electrons_of m a) (electrons_of m p) = Some 0.

(** The cache is up to date: every cached valence is the one RDKit would
    perceive now. *)
Definition in_sync (m : Mol) : Prop :=
  forall i x, atoms m !! i = Some x -> TotalValence x = perceive_valence m i.

(** Lines 19-56. *)
Fixpoint atoms_loop (idxs : list nat) (m : Mol) : outcome :=
  match idxs with
  | [] => Returned m
  | a :: rest =>
      match process_atom m a with
      | Returned m' => atoms_loop rest m'
      | Raised e m' => Raised e m'
      end
  end.

Definition repair_pass (m : Mol) : outcome :=
  atoms_loop (seq 0 (length (atoms m))) m.

(** Lines 14-57. *)
Definition update_bonds_and_charges (m : Mol) : outcome :=
  match repair_pass m with
  | Returned m' => SanitizeMol m'
  | Raised e m' => Raised e m'
  end.

End Repair.

(** *** A stand-in toolkit, to run the engine on examples *)

(** The valence lists of a few elements, as RDKit's periodic table has
    them; [-1] marks an element without a fixed valence. *)
Definition valence_table (z : Z) : list Z :=
  match z with
  | 1 => [1]
  | 5 => [3]
  | 6 => [4]
  | 7 => [3]
  | 8 => [2]
  | 9 => [1]
  | 15 => [3; 5; 7]
  | 16 => [2; 4; 6]
  | 17 => [1]
  | _ => [-1]
  end.

(** Modelled from the spec: the toolkit's valence perception is not part of
    the repository; the data model describes the total valence of an atom as
    the sum of the orders of the bonds touching it. *)
Definition bond_sum_valence (m : Mol) (a : nat) : Z :=
  (foldr (fun b acc =>
            if (BeginAtomIdx b =? a)%nat || (EndAtomIdx b =? a)%nat
            then order2 (Type_ b) + acc else acc) 0 (bonds m)) / 2.

Definition accept_all (m : Mol) : outcome := Returned m.

(** An RDKit molecule from atomic numbers and bonds, property cache filled. *)
Definition build_mol (zs : list Z) (bs : list (nat * nat * BondType)) : Mol :=
  UpdatePropertyCache bond_sum_valence
    (mkMol (map (fun z => mkAtom z 0 0) zs)
           (map (fun '(a, b, t) => mkBond a b t) bs)).

(** H-S-S-H: both sulfur atoms have the deficits 0, 2 and 4. *)
Definition HSSH : Mol :=
  build_mol [1; 16; 16; 1]
            [(0, 1, SINGLE); (1, 2, SINGLE); (2, 3, SINGLE)]%nat.

(** C-P#C, with the triple bond already in the input. *)
Definition CPC : Mol :=
  build_mol [6; 15; 6] [(1, 0, SINGLE); (1, 2, TRIPLE)]%nat.

(** H2SO2 with single bonds only, the way a sulfone arrives from a
    trajectory: S is atom 0, the oxygens are atoms 3 and 4. *)
Definition sulfone : Mol :=
  build_mol [16; 1; 1; 8; 8]
            [(0, 1, SINGLE); (0, 2, SINGLE); (0, 3, SINGLE); (0, 4, SINGLE)]%nat.

(** H-S-C-H: S (atom 0) has the deficits 0, 2, 4 and C (atom 2) the deficit 2. *)
Definition HSCH : Mol :=
  build_mol [16; 1; 6; 1] [(0, 1, SINGLE); (0, 2, SINGLE); (2, 3, SINGLE)]%nat.

(** Hydrazinium, H3N-NH3: both nitrogens (atoms 0 and 1) carry four bonds. *)
Definition hydrazinium : Mol :=
  build_mol [7; 7; 1; 1; 1; 1; 1; 1]
            [(0, 1, SINGLE); (0, 2, SINGLE); (0, 3, SINGLE); (0, 4, SINGLE);
             (1, 5, SINGLE); (1, 6, SINGLE); (1, 7, SINGLE)]%nat.


(** H3S-SH3: both sulfur atoms (atoms 0 and 1) carry four bonds. *)
Definition H3SSH3 : Mol :=
  build_mol [16; 16; 1; 1; 1; 1; 1; 1]
            [(0, 1, SINGLE); (0, 2, SINGLE); (0, 3, SINGLE); (0, 4, SINGLE);
             (1, 5, SINGLE); (1, 6, SINGLE); (1, 7, SINGLE)]%nat.

(** The sulfone again, with the oxygens bonded before the hydrogens: the
    last neighbor of S is now a hydrogen. *)
Definition sulfone_O_first : Mol :=
  build_mol [16; 8; 8; 1; 1]
            [(0, 1, SINGLE); (0, 2, SINGLE); (0, 3, SINGLE); (0, 4, SINGLE)]%nat.

(** A periodic table without any valence. *)
Definition no_valence (z : Z) : list Z := [].

(** Ammonium, NH4. *)
Definition ammonium : Mol :=
  build_mol [7; 1; 1; 1; 1]
            [(0, 1, SINGLE); (0, 2, SINGLE); (0, 3, SINGLE); (0, 4, SINGLE)]%nat.

(** Formaldehyde H2C-O with single bonds only: C is atom 0, O atom 3. *)
Definition formaldehyde : Mol :=
  build_mol [6; 1; 1; 8] [(0, 1, SINGLE); (0, 2, SINGLE); (0, 3, SINGLE)]%nat.

(** ** Facts about the engine *)

(** * Facts *)

Example split_ex1 :
  Py.split "  5 C1  0.0 x
" = ["5"; "C1"; "0.0"; "x"].
Proof. reflexivity. Qed.

Example int_ex1 : Py.int "12" = Ok 12 /\ Py.int "-3" = Ok (-3)
  /\ Py.int "1_0" = Ok 10 /\ Py.int "" = Raise ValueError
  /\ Py.int "1__0" = Raise ValueError /\ Py.int "x" = Raise ValueError.
Proof. repeat split; reflexivity. Qed.

Example slice_ex1 :
  Py.slice [1; 2; 3; 4] 1 9 = [2; 3; 4] /\ Py.slice [1; 2; 3; 4] 1 (-1) = [2; 3]
  /\ Py.slice [1; 2; 3; 4] 3 2 = [].
Proof. repeat split; reflexivity. Qed.

Section RepairFacts.

Variable GetValenceList : Z -> list Z.
Variable perceive_valence : Mol -> nat -> Z.

Local Notation "'UPC'" := (UpdatePropertyCache perceive_valence).
Local Notation "'electrons'" := (electrons_of GetValenceList).
Local Notation "'loop'" := (neighbors_loop GetValenceList perceive_valence).
Local Notation "'upgrade'" := (upgrade_bond perceive_valence).
Local Notation "'process'" := (process_atom GetValenceList perceive_valence).

Lemma py_min_None (l : list Z) : py_min l = None -> l = [].
Proof. destruct l; [done | discriminate]. Qed.

Lemma py_min_Some (l : list Z) (k : Z) :
  py_min l = Some k -> k ∈ l /\ forall x, x ∈ l -> k <= x.
Proof.
  revert k. induction l as [|y l IH]; intros k; [discriminate|].
  simpl. destruct (py_min l) as [j|] eqn:E.
  - intros [= <-]. destruct (IH j eq_refl) as [Hin Hle]. split.
    + destruct (Z.min_spec y j) as [[_ ->]|[_ ->]]; [left | by right].
    + intros x [->|Hx]%elem_of_cons; [lia|]. specialize (Hle x Hx). lia.
  - intros [= <-]. apply py_min_None in E as ->. split; [left|].
    intros x [->|Hx]%elem_of_cons; [lia | by apply elem_of_nil in Hx].
Qed.

Lemma py_min_is_Some (l : list Z) (x : Z) : x ∈ l -> is_Some (py_min l).
Proof. destruct l; [by intros ?%elem_of_nil | by eexists]. Qed.

Lemma common_electrons_Some (es nes : list Z) (k : Z) :
  common_electrons es nes = Some k ->
  k ∈ es /\ k ∈ nes /\ forall x, x ∈ es -> x ∈ nes -> k <= x.
Proof.
  unfold common_electrons. intros [Hin Hle]%py_min_Some.
  apply list_elem_of_filter in Hin as [? ?]. repeat split; [done..|].
  intros x ? ?. apply Hle, list_elem_of_filter. done.
Qed.

Lemma common_electrons_shared (es nes : list Z) (x : Z) :
  x ∈ es -> x ∈ nes -> exists k, common_electrons es nes = Some k /\ k <= x.
Proof.
  intros Hx Hn.
  assert (Hf : x ∈ filter (fun e => e ∈ nes) es) by by apply list_elem_of_filter.
  destruct (py_min_is_Some _ _ Hf) as [k Hk]. exists k. split; [done|].
  apply py_min_Some in Hk as [_ Hle]. by apply Hle.
Qed.

Lemma bonds_UpdatePropertyCache m : bonds (UPC m) = bonds m.
Proof. done. Qed.

Lemma bonds_SetFormalCharge m a c : bonds (SetFormalCharge m a c) = bonds m.
Proof. done. Qed.

Lemma atoms_SetBondType m b t : atoms (SetBondType m b t) = atoms m.
Proof. done. Qed.

Lemma length_atoms_UpdatePropertyCache m :
  length (atoms (UPC m)) = length (atoms m).
Proof. simpl. by rewrite length_imap. Qed.

Lemma length_atoms_SetFormalCharge m a c :
  length (atoms (SetFormalCharge m a c)) = length (atoms m).
Proof. simpl. by rewrite length_alter. Qed.

Lemma GetFormalCharge_UpdatePropertyCache m i :
  GetFormalCharge (UPC m) i = GetFormalCharge m i.
Proof.
  unfold GetFormalCharge. simpl. rewrite list_lookup_imap.
  by destruct (atoms m !! i).
Qed.

Lemma GetAtomicNum_UpdatePropertyCache m i :
  GetAtomicNum (UPC m) i = GetAtomicNum m i.
Proof.
  unfold GetAtomicNum. simpl. rewrite list_lookup_imap.
  by destruct (atoms m !! i).
Qed.

Lemma GetTotalValence_UpdatePropertyCache m i :
  (i < length (atoms m))%nat ->
  GetTotalValence (UPC m) i = perceive_valence m i.
Proof.
  intros Hi. unfold GetTotalValence. simpl. rewrite list_lookup_imap.
  destruct (lookup_lt_is_Some_2 _ _ Hi) as [x ->]. done.
Qed.

Lemma GetFormalCharge_SetFormalCharge_eq m a c :
  (a < length (atoms m))%nat -> GetFormalCharge (SetFormalCharge m a c) a = c.
Proof.
  intros Ha. unfold GetFormalCharge. simpl.
  destruct (lookup_lt_is_Some_2 _ _ Ha) as [x Hx].
  by rewrite list_lookup_alter_eq, Hx.
Qed.

Lemma GetFormalCharge_SetFormalCharge_ne m a c i :
  a <> i -> GetFormalCharge (SetFormalCharge m a c) i = GetFormalCharge m i.
Proof.
  intros Hne. unfold GetFormalCharge. simpl.
  by rewrite list_lookup_alter_ne.
Qed.

(** *** The neighbor loop *)

(** The loop does nothing on neighbors that are passed over and are not the
    last one; at the first neighbor with a common value other than 0 it
    runs [upgrade_bond] and leaves, whatever follows. *)
Lemma neighbors_loop_first_hit m a len i pre n post k :
  Forall (passed_over GetValenceList m a) pre ->
  (i + length pre <= len)%nat ->
  common_electrons (electrons m a) (electrons m n) = Some k ->
  k <> 0 ->
  loop m a (electrons m a) len i (pre ++ n :: post) = upgrade m a n k.
Proof.
  intros Hpre. revert i. induction Hpre as [|p pre Hp _ IH]; intros i Hlen Hk Hk0.
  - simpl. rewrite Hk. by apply Z.eqb_neq in Hk0 as ->.
  - simpl in *. destruct Hp as [-> | ->].
    + assert ((i =? len)%nat = false) as -> by (apply Nat.eqb_neq; lia).
      apply IH; [lia | done..].
    + simpl. apply IH; [lia | done..].
Qed.

(** When every neighbor shares a value <= 0 with the atom, the loop ends
    with the molecule as it was, or with its cache refreshed. *)
Lemma neighbors_loop_nonpositive m a len i ns :
  Forall (fun n => exists k, common_electrons (electrons m a) (electrons m n) = Some k
                             /\ k <= 0) ns ->
  loop m a (electrons m a) len i ns = Returned m
  \/ loop m a (electrons m a) len i ns = Returned (UPC m).
Proof.
  intros Hns. revert i. induction Hns as [|n ns (k & Hk & Hle) _ IH]; intros i.
  - by left.
  - simpl. rewrite Hk. destruct (k =? 0) eqn:E; [apply IH|].
    right. unfold upgrade_bond.
    apply Z.eqb_neq in E.
    assert ((k =? 1) = false) as -> by (apply Z.eqb_neq; lia).
    assert ((k =? 2) = false) as -> by (apply Z.eqb_neq; lia). done.
Qed.

(** A neighbor is bonded to the atom. *)
Lemma GetBondBetweenAtoms_neighbor m a n :
  n ∈ GetNeighbors m a ->
  exists b bd, GetBondBetweenAtoms m a n = Some b /\ bonds m !! b = Some bd
               /\ joins a n bd = true.
Proof.
  unfold GetNeighbors, GetBondBetweenAtoms.
  intros (bd & Hbd & Ho)%list_elem_of_omap.
  assert (Hj : joins a n bd = true).
  { unfold other_end in Ho. unfold joins.
    destruct (BeginAtomIdx bd =? a)%nat eqn:E1.
    - injection Ho as <-. by rewrite Nat.eqb_refl.
    - destruct (EndAtomIdx bd =? a)%nat eqn:E2; [|done].
      injection Ho as <-. rewrite Nat.eqb_refl. simpl.
      by rewrite ?orb_true_r. }
  destruct (list_find_elem_of (fun b => joins a n b = true) (bonds m) bd Hbd Hj)
    as [[b bd'] Hfind].
  exists b, bd'. rewrite Hfind. apply list_find_Some in Hfind as (? & ? & _).
  done.
Qed.

(** *** What a pass never touches *)

Lemma retyped_refl b : retyped b b.
Proof. repeat split; by left. Qed.

Lemma retyped_trans b1 b2 b3 : retyped b1 b2 -> retyped b2 b3 -> retyped b1 b3.
Proof.
  intros (? & ? & H12) (? & ? & H23). repeat split; [congruence..|].
  destruct H23 as [->|[->| ->]]; [done | by right; left | by right; right].
Qed.

Lemma same_graph_refl m : same_graph m m.
Proof. split; [done|]. apply Forall2_same_length_lookup. split; [done|].
  intros i x y ? ?. simplify_eq. apply retyped_refl. Qed.

Lemma same_graph_trans m1 m2 m3 :
  same_graph m1 m2 -> same_graph m2 m3 -> same_graph m1 m3.
Proof.
  intros [? H12] [? H23]. split; [congruence|].
  apply Forall2_same_length_lookup.
  apply Forall2_same_length_lookup in H12 as [? H12].
  apply Forall2_same_length_lookup in H23 as [? H23].
  split; [congruence|]. intros i x z Hx Hz.
  destruct (lookup_lt_is_Some_2 (bonds m2) i) as [y Hy].
  { apply lookup_lt_Some in Hx. lia. }
  eapply retyped_trans; eauto.
Qed.

Lemma same_graph_UpdatePropertyCache m : same_graph m (UPC m).
Proof.
  split; [apply length_atoms_UpdatePropertyCache|].
  apply (same_graph_refl m).
Qed.

Lemma same_graph_SetFormalCharge m a c : same_graph m (SetFormalCharge m a c).
Proof.
  split; [apply length_atoms_SetFormalCharge|]. apply (same_graph_refl m).
Qed.

Lemma same_graph_SetBondType m b t :
  t = DOUBLE \/ t = TRIPLE -> same_graph m (SetBondType m b t).
Proof.
  intros Ht. split; [done|]. simpl.
  apply Forall2_same_length_lookup. split; [by rewrite length_alter|].
  intros i x y Hx Hy. destruct (decide (b = i)) as [->|Hne].
  - rewrite list_lookup_alter_eq, Hx in Hy. simpl in Hy. injection Hy as <-.
    repeat split; simpl; tauto.
  - rewrite list_lookup_alter_ne, Hx in Hy by done. injection Hy as <-.
    apply retyped_refl.
Qed.

Lemma same_graph_upgrade_bond m a n k :
  same_graph m (final (upgrade m a n k)).
Proof.
  unfold upgrade_bond.
  destruct (k =? 1); [|destruct (k =? 2)];
    try destruct (GetBondBetweenAtoms m a n) as [b|]; cbn [final];
    first [ apply same_graph_refl
          | apply same_graph_UpdatePropertyCache
          | eapply same_graph_trans; [|apply same_graph_UpdatePropertyCache];
            apply same_graph_SetBondType; tauto ].
Qed.

Lemma same_graph_neighbors_loop es len ns : forall m a i,
  same_graph m (final (loop m a es len i ns)).
Proof.
  induction ns as [|n ns IH]; intros m a i; simpl; [apply same_graph_refl|].
  destruct (common_electrons es (electrons m n)) as [k|].
  - destruct (k =? 0); [apply IH | apply same_graph_upgrade_bond].
  - destruct (i =? len)%nat; [|apply IH].
    destruct es as [|e0 es']; [apply same_graph_refl|].
    eapply same_graph_trans; [|apply IH].
    eapply same_graph_trans;
      [apply same_graph_SetFormalCharge | apply same_graph_UpdatePropertyCache].
Qed.

Lemma same_graph_process_atom m a : same_graph m (final (process m a)).
Proof.
  unfold process_atom.
  destruct ((length (electrons m a) =? 1)%nat && (hd 0 (electrons m a) <? 0)).
  - simpl. eapply same_graph_trans;
      [apply same_graph_SetFormalCharge | apply same_graph_UpdatePropertyCache].
  - apply same_graph_neighbors_loop.
Qed.

Lemma same_graph_atoms_loop idxs : forall m,
  same_graph m (final (atoms_loop GetValenceList perceive_valence idxs m)).
Proof.
  induction idxs as [|a idxs IH]; intros m; simpl; [apply same_graph_refl|].
  pose proof (same_graph_process_atom m a) as Hp.
  destruct (process m a) as [m'|e m']; simpl in *; [|done].
  eapply same_graph_trans; [exact Hp | apply IH].
Qed.

(** *** Formal charges are only set on the atom being processed *)

Lemma charge_upgrade_bond m a n k i :
  GetFormalCharge (final (upgrade m a n k)) i = GetFormalCharge m i.
Proof.
  unfold upgrade_bond.
  destruct (k =? 1); [|destruct (k =? 2)];
    try destruct (GetBondBetweenAtoms m a n) as [b|]; cbn [final];
    by rewrite ?GetFormalCharge_UpdatePropertyCache.
Qed.

Lemma charge_neighbors_loop_ne es len ns x : forall m a i,
  x <> a ->
  GetFormalCharge (final (loop m a es len i ns)) x = GetFormalCharge m x.
Proof.
  induction ns as [|n ns IH]; intros m a i Hx; simpl; [done|].
  destruct (common_electrons es (electrons m n)) as [k|].
  - destruct (k =? 0); [by apply IH | apply charge_upgrade_bond].
  - destruct (i =? len)%nat; [|by apply IH].
    destruct es as [|e0 es']; [done|].
    rewrite IH by done. rewrite GetFormalCharge_UpdatePropertyCache.
    apply GetFormalCharge_SetFormalCharge_ne. congruence.
Qed.

Lemma charge_process_atom_ne m a x :
  x <> a -> GetFormalCharge (final (process m a)) x = GetFormalCharge m x.
Proof.
  intros Hx. unfold process_atom.
  destruct ((length (electrons m a) =? 1)%nat && (hd 0 (electrons m a) <? 0)).
  - cbn [final]. rewrite GetFormalCharge_UpdatePropertyCache.
    apply GetFormalCharge_SetFormalCharge_ne. congruence.
  - by apply charge_neighbors_loop_ne.
Qed.




Lemma process_atom_neighbors_path m a :
  only_positive_charge GetValenceList m a = false ->
  process m a =
  loop m a (electrons m a) (length (GetNeighbors m a)) 1 (GetNeighbors m a).
Proof. unfold only_positive_charge, process_atom. by intros ->. Qed.

(** *** The claims on the engine *)

(** Claim C2, as the code has it.  For an atom that reaches the neighbor loop, let [n] be
    the first neighbor whose deficits share with the atom's a smallest value
    [k] other than 0 (the neighbors before it share 0 as smallest value, or
    nothing).  [k] is the minimum of the whole intersection, not of its
    positive part.  The bond between the two atoms becomes DOUBLE when
    [k = 1], TRIPLE when [k = 2] and keeps its type otherwise; no other bond
    and no formal charge changes; every cached valence is recomputed on the
    result; and the neighbors after [n] play no role. *)
Theorem C2_first_nonzero_common_deficit m a pre n post k :
  only_positive_charge GetValenceList m a = false ->
  GetNeighbors m a = pre ++ n :: post ->
  Forall (passed_over GetValenceList m a) pre ->
  common_electrons (electrons m a) (electrons m n) = Some k ->
  k <> 0 ->
  exists b bd m1,
    GetBondBetweenAtoms m a n = Some b /\ bonds m !! b = Some bd /\
    m1 = (if k =? 1 then SetBondType m b DOUBLE
          else if k =? 2 then SetBondType m b TRIPLE else m) /\
    process m a = Returned (UPC m1) /\
    bonds (UPC m1) !! b =
      Some (mkBond (BeginAtomIdx bd) (EndAtomIdx bd)
                   (if k =? 1 then DOUBLE
                    else if k =? 2 then TRIPLE else Type_ bd)) /\
    (forall j, j <> b -> bonds (UPC m1) !! j = bonds m !! j) /\
    (forall i, (i < length (atoms m))%nat ->
               GetTotalValence (UPC m1) i = perceive_valence m1 i) /\
    (forall i, GetFormalCharge (UPC m1) i = GetFormalCharge m i) /\
    (forall post',
       loop m a (electrons m a) (length (pre ++ n :: post')) 1
            (pre ++ n :: post') = Returned (UPC m1)).
Proof.
  intros Hpath Hns Hpre Hk Hk0.
  destruct (GetBondBetweenAtoms_neighbor m a n) as (b & bd & Hb & Hbd & _).
  { rewrite Hns. apply elem_of_app. right. left. }
  assert (Hup : upgrade m a n k =
                Returned (UPC (if k =? 1 then SetBondType m b DOUBLE
                               else if k =? 2 then SetBondType m b TRIPLE
                               else m))).
  { unfold upgrade_bond. rewrite Hb.
    destruct (k =? 1); [done|]. by destruct (k =? 2). }
  eexists b, bd, _. split; [done|]. split; [done|]. split; [reflexivity|].
  split.
  { rewrite process_atom_neighbors_path, Hns, <- Hup by done.
    apply neighbors_loop_first_hit; [done | | done..].
    rewrite length_app. simpl. lia. }
  split.
  { rewrite bonds_UpdatePropertyCache.
    destruct (k =? 1); [|destruct (k =? 2)]; simpl;
      rewrite ?list_lookup_alter_eq, Hbd; [done..|]. by destruct bd. }
  split.
  { intros j Hj. rewrite bonds_UpdatePropertyCache.
    destruct (k =? 1); [|destruct (k =? 2)]; simpl;
      by rewrite ?list_lookup_alter_ne. }
  split.
  { intros i Hi. apply GetTotalValence_UpdatePropertyCache.
    destruct (k =? 1); [|destruct (k =? 2)]; by rewrite ?atoms_SetBondType. }
  split.
  { intros i. rewrite GetFormalCharge_UpdatePropertyCache.
    destruct (k =? 1); [|destruct (k =? 2)]; done. }
  intros post'. rewrite <- Hup.
  apply neighbors_loop_first_hit; [done | | done..].
  rewrite length_app. simpl. lia.
Qed.

(** Claim C3, as the code has it.  When the deficits of an atom contain 0 and the deficits
    of each of its neighbors contain 0 as well, processing the atom changes
    no bond and no formal charge: the molecule comes back as it was, at most
    with its cache refreshed. *)
Theorem C3_zero_deficit_shared_with_neighbors m a :
  0 ∈ electrons m a ->
  (forall n, n ∈ GetNeighbors m a -> 0 ∈ electrons m n) ->
  (process m a = Returned m \/ process m a = Returned (UPC m))
  /\ bonds (final (process m a)) = bonds m
  /\ forall i, GetFormalCharge (final (process m a)) i = GetFormalCharge m i.
Proof.
  intros H0 Hns.
  assert (Hpath : only_positive_charge GetValenceList m a = false).
  { unfold only_positive_charge. apply andb_false_iff.
    destruct (electrons m a) as [|e [|e' es]] eqn:E; [by left | | by left].
    right. apply list_elem_of_singleton in H0 as <-. done. }
  assert (Hres : process m a = Returned m \/ process m a = Returned (UPC m)).
  { rewrite process_atom_neighbors_path by done.
    apply neighbors_loop_nonpositive, Forall_forall. intros n Hn.
    by apply common_electrons_shared with (x := 0); [|apply Hns]. }
  split; [done|].
  destruct Hres as [-> | ->]; cbn [final]; split; try done.
  intros i. apply GetFormalCharge_UpdatePropertyCache.
Qed.


(** Claim C7, as the code has it.  The repair loop keeps the atoms and the bonded pairs,
    bond by bond; a bond ends with its initial type, DOUBLE or TRIPLE; so a
    bond that did not start as TRIPLE ends with an order at least its
    initial one. *)
Theorem C7_edges_kept_orders_below_triple_not_lowered m :
  let m' := final (repair_pass GetValenceList perceive_valence m) in
  length (atoms m') = length (atoms m)
  /\ map (fun b => (BeginAtomIdx b, EndAtomIdx b)) (bonds m')
     = map (fun b => (BeginAtomIdx b, EndAtomIdx b)) (bonds m)
  /\ forall j b, bonds m !! j = Some b ->
       exists b', bonds m' !! j = Some b'
         /\ (Type_ b' = Type_ b \/ Type_ b' = DOUBLE \/ Type_ b' = TRIPLE)
         /\ (Type_ b <> TRIPLE -> order2 (Type_ b) <= order2 (Type_ b')).
Proof.
  intros m'.
  destruct (same_graph_atoms_loop (seq 0 (length (atoms m))) m) as [Hl HF].
  fold (repair_pass GetValenceList perceive_valence m) in Hl, HF.
  fold m' in Hl, HF. split; [done|]. split.
  - symmetry. induction HF as [|b b' l l' (Hb & He & _) _ IH]; [done|].
    simpl. by rewrite Hb, He, IH.
  - intros j b Hj.
    destruct (Forall2_lookup_l _ _ _ _ _ HF Hj) as (b' & Hj' & _ & _ & Ht).
    exists b'. split; [done|]. split; [done|].
    intros Hnt. destruct Ht as [->|[->| ->]]; [lia|..];
      destruct (Type_ b); simpl; (lia || done).
Qed.

(** Claim C10, as the code has it.  For an atom that reaches the neighbor loop, when the
    first neighbor sharing a smallest deficit other than 0 shares a value
    that is neither 1 nor 2, processing the atom only refreshes the cache:
    no bond type and no formal charge changes, and the loop is left, so
    that the neighbors after it play no role. *)
Theorem C10_other_common_deficit_only_stops m a pre n post k :
  only_positive_charge GetValenceList m a = false ->
  GetNeighbors m a = pre ++ n :: post ->
  Forall (passed_over GetValenceList m a) pre ->
  common_electrons (electrons m a) (electrons m n) = Some k ->
  k <> 0 -> k <> 1 -> k <> 2 ->
  process m a = Returned (UPC m)
  /\ bonds (final (process m a)) = bonds m
  /\ (forall i, GetFormalCharge (final (process m a)) i = GetFormalCharge m i)
  /\ (forall post',
        loop m a (electrons m a) (length (pre ++ n :: post')) 1
             (pre ++ n :: post') = Returned (UPC m)).
Proof.
  intros Hpath Hns Hpre Hk Hk0 Hk1 Hk2.
  assert (Hup : upgrade m a n k = Returned (UPC m)).
  { unfold upgrade_bond.
    apply Z.eqb_neq in Hk1 as ->. by apply Z.eqb_neq in Hk2 as ->. }
  assert (Hp : process m a = Returned (UPC m)).
  { rewrite process_atom_neighbors_path, Hns, <- Hup by done.
    apply neighbors_loop_first_hit; [done | | done..].
    rewrite length_app. simpl. lia. }
  split; [done|]. rewrite Hp. cbn [final]. split; [done|].
  split; [apply GetFormalCharge_UpdatePropertyCache|].
  intros post'. rewrite <- Hup.
  apply neighbors_loop_first_hit; [done | | done..].
  rewrite length_app. simpl. lia.
Qed.

End RepairFacts.

(** *** The engine on concrete molecules *)

Lemma C2_witness :
  process_atom valence_table bond_sum_valence formaldehyde 0
  = Returned (UpdatePropertyCache bond_sum_valence
                (SetBondType formaldehyde 2 DOUBLE)).
Proof.
  destruct (C2_first_nonzero_common_deficit valence_table bond_sum_valence
              formaldehyde 0%nat [1; 2]%nat 3%nat [] 1)
    as (b & bd & m1 & Hb & _ & Hm1 & Hp & _).
  - reflexivity.
  - reflexivity.
  - repeat constructor; left; reflexivity.
  - reflexivity.
  - lia.
  - vm_compute in Hb. injection Hb as <-. simpl in Hm1. subst m1. exact Hp.
Defined.

(** H-S-S-H: the two sulfur atoms share the deficits 0, 2 and 4, a set that
    is neither empty nor {0} and whose smallest positive value is 2; the
    engine reads the minimum 0, changes nothing and goes on to the end of the
    neighbors: the S-S bond stays SINGLE. *)
Lemma C2_counterexample :
  only_positive_charge valence_table HSSH 1 = false
  /\ GetNeighbors HSSH 1 = [0; 2]%nat
  /\ filter (fun e => e ∈ electrons_of valence_table HSSH 2)
            (electrons_of valence_table HSSH 1) = [0; 2; 4]
  /\ min_positive [0; 2; 4] = Some 2
  /\ common_electrons (electrons_of valence_table HSSH 1)
                      (electrons_of valence_table HSSH 2) = Some 0
  /\ GetBondBetweenAtoms HSSH 1 2 = Some 1%nat
  /\ process_atom valence_table bond_sum_valence HSSH 1 = Returned HSSH
  /\ Type_ <$> bonds (final (process_atom valence_table bond_sum_valence HSSH 1))
               !! 1%nat = Some SINGLE.
Proof. repeat split; vm_compute; reflexivity. Qed.

Lemma C3_witness :
  bonds (final (process_atom valence_table bond_sum_valence HSSH 1))
  = bonds HSSH.
Proof.
  apply (C3_zero_deficit_shared_with_neighbors valence_table bond_sum_valence
           HSSH 1%nat).
  - vm_compute. left.
  - intros n Hn. change (n ∈ [0; 2]%nat) in Hn.
    apply elem_of_cons in Hn as [->|Hn]; [vm_compute; left|].
    apply elem_of_cons in Hn as [->|Hn]; [vm_compute; left|].
    by apply elem_of_nil in Hn.
Defined.

(** Two inputs on which an atom whose deficits contain 0 is mutated.  In the
    sulfone, S (deficits -2, 0, 2) shares nothing with its last neighbor, an
    oxygen with deficit 1, and takes the charge +2.  In H-S-C-H, S (deficits
    0, 2, 4) shares only 2 with the carbon and the S-C bond becomes TRIPLE. *)
Lemma C3_counterexample :
  (electrons_of valence_table sulfone 0 = [-2; 0; 2]
   /\ GetFormalCharge sulfone 0 = 0
   /\ GetFormalCharge
        (final (process_atom valence_table bond_sum_valence sulfone 0)) 0 = 2)
  /\ (electrons_of valence_table HSCH 0 = [0; 2; 4]
      /\ Type_ <$> bonds HSCH !! 1%nat = Some SINGLE
      /\ Type_ <$> bonds (final (process_atom valence_table bond_sum_valence
                                              HSCH 0)) !! 1%nat = Some TRIPLE).
Proof. repeat split; vm_compute; reflexivity. Qed.


(** Ammonium: the nitrogen, with its four bonds, has the single deficit -1
    and takes the charge +1; no bond changes. *)
Example ammonium_charged :
  electrons_of valence_table ammonium 0 = [-1]
  /\ GetFormalCharge
       (final (repair_pass valence_table bond_sum_valence ammonium)) 0 = 1
  /\ bonds (final (repair_pass valence_table bond_sum_valence ammonium))
     = bonds ammonium.
Proof. repeat split; vm_compute; reflexivity. Qed.

(** C-P#C: the triple bond of the input (bond 1) is DOUBLE after the pass. *)
Lemma C7_counterexample :
  bonds CPC !! 1%nat = Some (mkBond 1 2 TRIPLE)
  /\ bonds (final (repair_pass valence_table bond_sum_valence CPC)) !! 1%nat
     = Some (mkBond 1 2 DOUBLE)
  /\ bonds (final (update_bonds_and_charges valence_table bond_sum_valence
                     accept_all CPC)) !! 1%nat
     = Some (mkBond 1 2 DOUBLE)
  /\ order2 DOUBLE < order2 TRIPLE.
Proof. repeat split; vm_compute; reflexivity. Qed.

Lemma C10_witness :
  common_electrons (electrons_of valence_table H3SSH3 0)
                   (electrons_of valence_table H3SSH3 1) = Some (-2)
  /\ process_atom valence_table bond_sum_valence H3SSH3 0
     = Returned (UpdatePropertyCache bond_sum_valence H3SSH3).
Proof.
  split; [reflexivity|].
  apply (C10_other_common_deficit_only_stops valence_table bond_sum_valence
           H3SSH3 0%nat [] 1%nat [2; 3; 4]%nat (-2)).
  - reflexivity.
  - reflexivity.
  - constructor.
  - reflexivity.
  - lia.
  - lia.
  - lia.
Defined.

(** Hydrazinium: the first neighbor of nitrogen 0 is nitrogen 1, with which
    it shares the deficit -1, neither 1 nor 2; nitrogen 0 has that single
    deficit, is handled by line 28 and takes the charge +1. *)
Lemma C10_counterexample :
  GetNeighbors hydrazinium 0 = [1; 2; 3; 4]%nat
  /\ common_electrons (electrons_of valence_table hydrazinium 0)
                      (electrons_of valence_table hydrazinium 1) = Some (-1)
  /\ GetFormalCharge hydrazinium 0 = 0
  /\ GetFormalCharge
       (final (process_atom valence_table bond_sum_valence hydrazinium 0)) 0
     = 1.
Proof. repeat split; vm_compute; reflexivity. Qed.

(** ** Facts about the Python built-ins *)

Lemma str_app_nil_r (s : string) : s +:+ "" = s.
Proof.
  induction s as [|c s IH]; [done|].
  change (String c (s +:+ "") = String c s). by rewrite IH.
Qed.

Lemma str_app_assoc (s t u : string) : (s +:+ t) +:+ u = s +:+ (t +:+ u).
Proof.
  induction s as [|c s IH]; [done|].
  change (String c ((s +:+ t) +:+ u) = String c (s +:+ (t +:+ u))).
  by rewrite IH.
Qed.

Lemma str_app_empty (s t : string) : s +:+ t = "" -> s = "".
Proof. by destruct s. Qed.

(** [split] reads a field that is followed by nothing or by a blank, and
    then goes on with what follows. *)
Lemma split_go_token (tok : string) : forall cur rest,
  no_blank tok = true -> blank_start rest = true -> cur +:+ tok <> "" ->
  Py.split_go cur (tok +:+ rest) = (cur +:+ tok) :: Py.split rest.
Proof.
  induction tok as [|c tok IH]; intros cur rest Htok Hrest Hne.
  - rewrite str_app_nil_r in *. change ("" +:+ rest) with rest.
    unfold Py.split. destruct rest as [|d rest]; simpl.
    + by destruct cur.
    + simpl in Hrest. rewrite Hrest. by destruct cur.
  - simpl in Htok. apply andb_true_iff in Htok as [Hc Htok].
    apply negb_true_iff in Hc.
    change (String c tok +:+ rest) with (String c (tok +:+ rest)).
    simpl. rewrite Hc.
    replace (cur +:+ String c tok) with ((cur +:+ String c "") +:+ tok)
      by (rewrite str_app_assoc; reflexivity).
    apply IH; [done..|].
    intros H%str_app_empty. by destruct cur.
Qed.

Lemma split_first_field (id rest : string) :
  id <> "" -> no_blank id = true -> blank_start rest = true ->
  Py.split (id +:+ rest) = id :: Py.split rest.
Proof. intros. by apply (split_go_token id ""). Qed.

Lemma str_from_app (tok rest : string) :
  Py.str_from (String.length tok) (tok +:+ rest) = rest.
Proof. induction tok as [|c tok IH]; [by destruct rest | exact IH]. Qed.

Lemma string_of_uint_no_blank (d : Decimal.uint) :
  no_blank (NilEmpty.string_of_uint d) = true.
Proof. induction d; simpl; done. Qed.

Lemma str_is_a_field (n : nat) : Py.str n <> "" /\ no_blank (Py.str n) = true.
Proof.
  unfold Py.str, NilZero.string_of_uint.
  destruct (Nat.to_uint n) eqn:E; try done;
    (split; [done | apply (string_of_uint_no_blank (_ u))]).
Qed.

Lemma getitem_head {A} (x : A) (l : list A) : Py.getitem (x :: l) 0 = Ok x.
Proof.
  unfold Py.getitem. cbn [Z.ltb Z.compare orb].
  destruct (Z.leb_spec (Z.of_nat (length (x :: l))) 0) as [Hle|_]; [|done].
  simpl in Hle. lia.
Qed.

(** ** Facts about the mol2 reader *)

Lemma slice_to_the_end {A} (l : list A) (start stop : Z) :
  0 <= start -> Z.of_nat (length l) <= stop ->
  Py.slice l start stop = drop (Z.to_nat start) l.
Proof.
  intros Hs He. unfold Py.slice, Py.clip.
  assert ((start <? 0) = false) as -> by (apply Z.ltb_ge; lia).
  assert ((stop <? 0) = false) as -> by (apply Z.ltb_ge; lia).
  rewrite (Z.min_r stop) by lia.
  destruct (Z.le_gt_cases start (Z.of_nat (length l))) as [Hle|Hgt].
  - rewrite Z.min_l by lia. apply take_ge. rewrite length_drop. lia.
  - rewrite Z.min_r by lia. rewrite Z.sub_diag. simpl.
    symmetry. apply drop_ge. lia.
Qed.

Lemma zip3_lookup {A B C} (la : list A) (lb : list B) (lc : list C) i a b c :
  zip3 la lb lc !! i = Some (a, b, c)
  <-> la !! i = Some a /\ lb !! i = Some b /\ lc !! i = Some c.
Proof.
  revert lb lc i. induction la as [|x la IH]; intros lb lc i.
  - simpl. split; [done | by intros [? _]].
  - destruct lb as [|y lb]; [split; [done | by intros (_ & ? & _)]|].
    destruct lc as [|z lc]; [split; [done | by intros (_ & _ & ?)]|].
    destruct i as [|i]; simpl.
    + split; [by intros [= -> -> ->] | by intros ([= ->] & [= ->] & [= ->])].
    + apply IH.
Qed.

Lemma zip3_length {A B C} (la : list A) (lb : list B) (lc : list C) :
  length (zip3 la lb lc) = (length la `min` (length lb `min` length lc))%nat.
Proof.
  revert lb lc. induction la as [|x la IH]; intros lb lc; [done|].
  destruct lb as [|y lb]; [done|]. destruct lc as [|z lc]; simpl; [lia|].
  rewrite IH. lia.
Qed.

Lemma zip3_take {A B C} (la : list A) (lb : list B) (lc : list C) k :
  (length la `min` (length lb `min` length lc) <= k)%nat ->
  zip3 (take k la) (take k lb) (take k lc) = zip3 la lb lc.
Proof.
  revert lb lc k. induction la as [|x la IH]; intros lb lc k Hk.
  - by rewrite take_nil.
  - destruct lb as [|y lb]; [rewrite take_nil; by destruct (take k (x :: la))|].
    destruct lc as [|z lc].
    { rewrite take_nil. destruct (take k (x :: la)); [done|].
      by destruct (take k (y :: lb)). }
    destruct k as [|k]; simpl in *; [lia|]. f_equal. apply IH. lia.
Qed.

Lemma residues_from_block_header {M} (parse : string -> bool -> bool -> option (RDMol M))
    (set_iter : list string -> list string) block ignoreH :
  residues_from_block parse set_iter block ignoreH
  = block_header block ≫= group_and_build parse set_iter block ignoreH.
Proof.
  unfold residues_from_block, block_header, group_and_build.
  destruct (get_mol2_records block) as [[mol_lines first_atom_lines] first_bond_lines].
  destruct (Py.getitem mol_lines 0) as [mol_line|]; simpl; [|done].
  destruct (Py.getitem first_atom_lines 0) as [fa|]; simpl; [|done].
  destruct (Py.getitem first_bond_lines 0) as [fb|]; simpl; [|done].
  destruct (read_counts block (Z.of_nat mol_line)) as [[na nb]|]; simpl; [|done].
  by destruct (resnames_of _).
Qed.

(** X21.  Where the renumbering of the atom lines does what it is meant to
    do: on lines that start with their id, the [j]-th line of a residue comes out
    with the id [j+1] in front of what followed the old id, untouched. *)
Lemma renumber_atoms_flush_left (ls : list string) :
  forall i map_atoms acc,
  Forall flush_left ls ->
  exists map_atoms' new_atoms,
    renumber_atoms i ls map_atoms acc = Ok (map_atoms', acc ++ new_atoms)
    /\ length new_atoms = length ls
    /\ forall j line, ls !! j = Some line ->
         exists id rest,
           line = id +:+ rest
           /\ new_atoms !! j = Some (Py.str (i + j + 1) +:+ rest)
           /\ Py.split line = id :: Py.split rest
           /\ Py.split (Py.str (i + j + 1) +:+ rest)
              = Py.str (i + j + 1) :: Py.split rest.
Proof.
  induction ls as [|line ls IH]; intros i map_atoms acc Hls.
  - exists map_atoms, []. rewrite app_nil_r. by repeat split.
  - apply Forall_cons in Hls as [(id & rest & -> & Hid & Hnb & Hrest) Hls].
    simpl. rewrite split_first_field, getitem_head by done. simpl.
    rewrite str_from_app.
    destruct (IH (S i) (<[id := (i + 1)%nat]> map_atoms)
                 (acc ++ [Py.str (i + 1) +:+ rest]) Hls)
      as (map' & new' & -> & Hlen & Hnew).
    exists map', ((Py.str (i + 1) +:+ rest) :: new').
    split; [by rewrite <- app_assoc|]. split; [simpl; lia|].
    intros [|j] l Hl; simpl in Hl.
    + injection Hl as <-. exists id, rest.
      replace (i + 0 + 1)%nat with (i + 1)%nat by lia.
      repeat split; [by apply split_first_field|].
      destruct (str_is_a_field (i + 1)). by apply split_first_field.
    + destruct (Hnew j l Hl) as (id' & rest' & -> & Hj & Hs & Hs').
      exists id', rest'.
      replace (i + S j + 1)%nat with (S i + j + 1)%nat by lia. done.
Qed.

Section Mol2Facts.

Context {M : Type}.
Variable parse : string -> bool -> bool -> option (RDMol M).
Variable set_iter : list string -> list string.

(** The loop over the residue names never turns a refusal of the parser into
    an exception: when it runs to its end with the parser that accepts every
    block, it runs to its end with any parser, and returns the accepted
    blocks, parsed and tagged, in the same order. *)
Lemma build_residues_texts atoms bonds ignoreH names :
  forall (acc_t : list (RDMol string)) (acc : list (RDMol M)) rs,
  build_residues text_parser names atoms bonds ignoreH acc_t = Ok rs ->
  exists rs',
    rs = acc_t ++ rs'
    /\ Forall (fun r => exists name, name ∈ names
                                     /\ GetProp r "resname" = Some name) rs'
    /\ build_residues parse names atoms bonds ignoreH acc
       = Ok (acc ++ omap (parse_and_tag parse ignoreH) rs').
Proof.
  induction names as [|name names IH]; intros acc_t acc rs; simpl.
  - intros [= <-]. exists []. by rewrite !app_nil_r.
  - destruct (dict_get atoms name) as [atom_lines|]; simpl; [|done].
    destruct (renumber_atoms 0 atom_lines ∅ []) as [[map_atoms new_atoms]|];
      simpl; [|done].
    destruct (dict_get bonds name) as [bond_lines|]; simpl; [|done].
    destruct (renumber_bonds 0 bond_lines map_atoms []) as [new_bonds|];
      simpl; [|done].
    set (block := residue_mol2_block name new_atoms new_bonds).
    unfold text_parser at 1. intros Hrs.
    set (r := SetProp (mkRDMol block ∅) "resname" name) in Hrs.
    assert (Hr : parse_and_tag parse ignoreH r
                 = (fun m => SetProp m "resname" name)
                     <$> parse block true ignoreH).
    { unfold parse_and_tag, GetProp. subst r. simpl.
      by rewrite lookup_insert_eq. }
    destruct (parse block true ignoreH) as [m|] eqn:Hp.
    + destruct (IH (acc_t ++ [r]) (acc ++ [SetProp m "resname" name]) rs Hrs)
        as (rs' & -> & HF & Hb).
      exists (r :: rs'). rewrite <- app_assoc. split; [done|]. split.
      * constructor.
        -- exists name. split; [left|]. unfold GetProp. subst r. simpl.
           by rewrite lookup_insert_eq.
        -- eapply Forall_impl; [exact HF|].
           intros x (nm & ? & ?). exists nm. split; [by right | done].
      * rewrite Hb. simpl. rewrite Hr. simpl. by rewrite <- app_assoc.
    + destruct (IH (acc_t ++ [r]) acc rs Hrs) as (rs' & -> & HF & Hb).
      exists (r :: rs'). rewrite <- app_assoc. split; [done|]. split.
      * constructor.
        -- exists name. split; [left|]. unfold GetProp. subst r. simpl.
           by rewrite lookup_insert_eq.
        -- eapply Forall_impl; [exact HF|].
           intros x (nm & ? & ?). exists nm. split; [by right | done].
      * rewrite Hb. simpl. by rewrite Hr.
Qed.

Lemma group_and_build_texts block ignoreH header rs :
  group_and_build text_parser set_iter block ignoreH header = Ok rs ->
  Forall (fun r => is_Some (GetProp r "resname")) rs
  /\ group_and_build parse set_iter block ignoreH header
     = Ok (omap (parse_and_tag parse ignoreH) rs).
Proof.
  destruct header as [[[[fa fb] na] nb] names]. unfold group_and_build.
  destruct (assign_atoms _ _ _) as [[atoms map_id_to_res]|]; simpl; [|done].
  destruct (assign_bonds _ _ _) as [bonds|]; simpl; [|done].
  intros Hrs.
  destruct (build_residues_texts atoms bonds ignoreH _ [] [] rs Hrs)
    as (rs' & -> & HF & Hb).
  simpl in *. split; [|done].
  eapply Forall_impl; [exact HF|]. intros r (nm & _ & ->). by eexists.
Qed.

Lemma residues_from_block_texts block ignoreH rs :
  residues_from_block text_parser set_iter block ignoreH = Ok rs ->
  Forall (fun r => is_Some (GetProp r "resname")) rs
  /\ residues_from_block parse set_iter block ignoreH
     = Ok (omap (parse_and_tag parse ignoreH) rs).
Proof.
  rewrite !residues_from_block_header.
  destruct (block_header block) as [header|]; simpl; [|done].
  apply group_and_build_texts.
Qed.

(** *** The claims on the reader *)

(** Claim C1, as the code has it.  The extraction does not compare the announced counts
    with the lines at hand.  When the counts of the molecule record reach
    beyond the end of the input, the slice of line 140 is clipped there: the
    block is what is left of the input from the molecule record on, and it
    goes to [residues_from_block] without an error of the extraction. *)
Theorem C1_counts_beyond_the_input_clip_the_block
    mol_line first_atom_line first_bond_line lines ignoreH num_atoms num_bonds :
  0 <= mol_line ->
  read_counts lines mol_line = Ok (num_atoms, num_bonds) ->
  Z.of_nat (length lines) < first_atom_line + num_atoms + 1 + num_bonds + 1 ->
  get_residues_from_mol2 parse set_iter mol_line first_atom_line
                         first_bond_line lines ignoreH
  = residues_from_block parse set_iter (drop (Z.to_nat mol_line) lines) ignoreH.
Proof.
  intros Hm Hc Hlen. unfold get_residues_from_mol2. rewrite Hc. simpl.
  f_equal. apply slice_to_the_end; lia.
Qed.

(** Claim C4, as the code has it.  The reader pairs the three lists of record starts by
    position and stops at the end of the shortest: with [k] the smallest of
    the three lengths, exactly the first [k] triples are read, the [i]-th
    made of the [i]-th entry of each list; what the longer lists hold beyond
    [k] is not read, and the difference of the lengths raises nothing. *)
Theorem C4_reader_stops_at_the_shortest_record_list text ignoreH :
  let lines := Py.readlines text in
  let mol_lines := (get_mol2_records lines).1.1 in
  let first_atom_lines := (get_mol2_records lines).1.2 in
  let first_bond_lines := (get_mol2_records lines).2 in
  let k := (length mol_lines
            `min` (length first_atom_lines `min` length first_bond_lines))%nat in
  let records := zip3 mol_lines first_atom_lines first_bond_lines in
  length records = k
  /\ (forall i a b c, records !! i = Some (a, b, c)
        <-> mol_lines !! i = Some a /\ first_atom_lines !! i = Some b
            /\ first_bond_lines !! i = Some c)
  /\ mol2_reader parse set_iter text ignoreH
     = read_molecules parse set_iter
         (zip3 (take k mol_lines) (take k first_atom_lines)
               (take k first_bond_lines)) lines ignoreH [].
Proof.
  intros lines mol_lines first_atom_lines first_bond_lines k records.
  split; [apply zip3_length|]. split; [intros; apply zip3_lookup|].
  rewrite zip3_take by done. unfold mol2_reader.
  subst records mol_lines first_atom_lines first_bond_lines lines.
  by destruct (get_mol2_records (Py.readlines text)) as [[? ?] ?].
Qed.

(** The two-residue block of the specification laid out with every atom
    line starting with its id ([ex_block]: LIG1 with the atoms 5, 6, 7 and
    the bond 5-6, WAT1 with the atoms 9, 10 and the bond 9-10, and the bond
    7-9 between them).  Whatever the order in which the set of residue names
    is iterated, the splitter hands exactly two blocks to the parser,
    [LIG1_block] and [WAT1_block]: the atoms are numbered 1, 2, 3 and 1, 2,
    each block has the single bond 1-2, and the bond 7-9 is in neither.  The
    result is what the parser makes of them. *)
Lemma flush_left_two_residue_block ignoreH :
  (forall l, set_iter l ≡ₚ remove_dups l) ->
  let lig := handed "LIG1" LIG1_block in
  let wat := handed "WAT1" WAT1_block in
  let block := Py.readlines ex_block in
  (exists rs,
     (rs = [lig; wat] \/ rs = [wat; lig])
     /\ residues_from_block text_parser set_iter block ignoreH = Ok rs
     /\ residues_from_block parse set_iter block ignoreH
        = Ok (omap (parse_and_tag parse ignoreH) rs))
  /\ tokens LIG1_block =
       [["@<TRIPOS>MOLECULE"]; ["LIG1"]; ["3"; "1"]; ["SMALL"];
        ["USER_CHARGES"]; ["@<TRIPOS>ATOM"];
        ["1"; "C1"; "0.0"; "0.0"; "0.0"; "C.3"; "1"; "LIG1"; "0.0"];
        ["2"; "C2"; "1.5"; "0.0"; "0.0"; "C.3"; "1"; "LIG1"; "0.0"];
        ["3"; "O1"; "2.0"; "1.0"; "0.0"; "O.3"; "1"; "LIG1"; "0.0"];
        ["@<TRIPOS>BOND"]; ["1"; "1"; "2"; "1"]]
  /\ tokens WAT1_block =
       [["@<TRIPOS>MOLECULE"]; ["WAT1"]; ["2"; "1"]; ["SMALL"];
        ["USER_CHARGES"]; ["@<TRIPOS>ATOM"];
        ["1"; "O"; "4.0"; "1.0"; "0.0"; "O.3"; "2"; "WAT1"; "0.0"];
        ["2"; "H1"; "4.5"; "1.5"; "0.0"; "H"; "2"; "WAT1"; "0.0"];
        ["@<TRIPOS>BOND"]; ["1"; "1"; "2"; "1"]].
Proof.
  intros Hset lig wat block.
  split; [|split; vm_compute; reflexivity].
  set (names := ["LIG1"; "LIG1"; "LIG1"; "WAT1"; "WAT1"]).
  assert (Hh : block_header block = Ok (5%nat, 11%nat, 5, 3, names))
    by (vm_compute; reflexivity).
  assert (Hord : set_iter names = ["LIG1"; "WAT1"]
                 \/ set_iter names = ["WAT1"; "LIG1"]).
  { apply Permutation_length_2_inv. symmetry.
    exact (Hset names). }
  assert (Ht : exists rs, (rs = [lig; wat] \/ rs = [wat; lig])
               /\ residues_from_block text_parser set_iter block ignoreH = Ok rs).
  { rewrite residues_from_block_header, Hh. simpl. unfold group_and_build.
    destruct Hord as [-> | ->].
    - exists [lig; wat]. split; [by left|]. vm_compute. reflexivity.
    - exists [wat; lig]. split; [by right|]. vm_compute. reflexivity. }
  destruct Ht as (rs & Hrs & Ht). exists rs. split; [done|]. split; [done|].
  by apply residues_from_block_texts.
Qed.

End Mol2Facts.

(** *** The reader on concrete files *)

Lemma C1_witness :
  get_residues_from_mol2 text_parser first_seen 0 5 8
                         (Py.readlines short_file) false
  = residues_from_block text_parser first_seen
      (drop (Z.to_nat 0) (Py.readlines short_file)) false.
Proof.
  apply (C1_counts_beyond_the_input_clip_the_block text_parser first_seen
           0 5 8 (Py.readlines short_file) false 2 5).
  - lia.
  - vm_compute. reflexivity.
  - vm_compute. reflexivity.
Defined.

(** [short_file] announces 5 bonds and holds 1: the ten lines are scanned,
    the block is cut short without a word, and the reader returns a residue
    with 2 atoms and 1 bond. *)
Lemma C1_counterexample :
  length (Py.readlines short_file) = 10%nat
  /\ get_mol2_records (Py.readlines short_file) = ([0], [5], [8])%nat
  /\ read_counts (Py.readlines short_file) 0 = Ok (2, 5)
  /\ get_residues_from_mol2 text_parser first_seen 0 5 8
                            (Py.readlines short_file) false
     = Ok [handed "LIG1" short_file_block]
  /\ mol2_reader text_parser first_seen short_file false
     = Ok [handed "LIG1" short_file_block].
Proof. repeat split; vm_compute; reflexivity. Qed.

(** [no_bond_record_file] has two MOLECULE records, two ATOM records and one
    BOND record: the reader returns the residue of the first molecule and
    raises nothing; the second molecule is not read. *)
Lemma C4_counterexample :
  get_mol2_records (Py.readlines no_bond_record_file)
  = ([0; 8], [5; 13], [7])%nat
  /\ mol2_reader text_parser first_seen no_bond_record_file false
     = Ok [handed "LIG1" no_bond_record_block].
Proof. repeat split; vm_compute; reflexivity. Qed.

(** Claim C5, where the code departs from it.  On atom lines that start with blanks
    the renumbering cuts [len(atom_id)] characters from the start of the line,
    blanks included: with one blank before id 5 the line comes out with the id
    15 instead of 1, with two blanks before id 6 it comes out with the id 2
    followed by the old id 6 as an extra field. *)
Theorem C5_leading_blanks_break_the_renumbering :
  Py.split " 5 C1 0.0 0.0 0.0 C.3 1 LIG1 0.0"
  = ["5"; "C1"; "0.0"; "0.0"; "0.0"; "C.3"; "1"; "LIG1"; "0.0"]
  /\ snd <$> (match renumber_atoms 0 [" 5 C1 0.0 0.0 0.0 C.3 1 LIG1 0.0";
                                      "  6 C2 1.5 0.0 0.0 C.3 1 LIG1 0.0"] ∅ []
              with Ok x => Some x | Raise _ => None end)
     = Some ["15 C1 0.0 0.0 0.0 C.3 1 LIG1 0.0";
             "2 6 C2 1.5 0.0 0.0 C.3 1 LIG1 0.0"]
  /\ Py.split "2 6 C2 1.5 0.0 0.0 C.3 1 LIG1 0.0"
     = ["2"; "6"; "C2"; "1.5"; "0.0"; "0.0"; "C.3"; "1"; "LIG1"; "0.0"]
  /\ mol2_reader text_parser first_seen indented_block false
     = Ok [handed "LIG1" indented_result].
Proof. repeat split; vm_compute; reflexivity. Qed.

Lemma flush_left_two_residue_block_first_seen :
  exists rs,
    (rs = [handed "LIG1" LIG1_block; handed "WAT1" WAT1_block]
     \/ rs = [handed "WAT1" WAT1_block; handed "LIG1" LIG1_block])
    /\ residues_from_block text_parser first_seen (Py.readlines ex_block) false
       = Ok rs.
Proof.
  destruct (flush_left_two_residue_block text_parser first_seen false)
    as [(rs & Hor & Hrs & _) _].
  - intros l. reflexivity.
  - exists rs. split; [exact Hor | exact Hrs].
Qed.

(** Claim C8, where the code departs from it.  The two-residue block of the
    specification with its atom ids right-aligned ([ex_block_right_aligned]
    has, line by line, the fields of [ex_block]: LIG1 with the atoms 5, 6, 7
    and the bond 5-6, WAT1 with the atoms 9, 10 and the bond 9-10, and the
    bond 7-9 between them).  The splitter hands two blocks to the parser,
    and the bond 7-9 is in neither, but the atoms of LIG1 come out with the
    ids 15, 26, 37 and those of WAT1 with the ids 19, 2, while the bond of
    each block joins the ids 1 and 2: the renumbering of line 200 cuts
    [len(atom_id)] characters from the start of the line, blanks included. *)
Theorem C8_right_aligned_ids_are_not_renumbered :
  tokens ex_block_right_aligned = tokens ex_block
  /\ residues_from_block text_parser first_seen
       (Py.readlines ex_block_right_aligned) false
     = Ok [handed "LIG1" LIG1_right_aligned_result;
           handed "WAT1" WAT1_right_aligned_result]
  /\ mol2_reader text_parser first_seen ex_block_right_aligned false
     = Ok [handed "LIG1" LIG1_right_aligned_result;
           handed "WAT1" WAT1_right_aligned_result]
  /\ tokens LIG1_right_aligned_result =
       [["@<TRIPOS>MOLECULE"]; ["LIG1"]; ["3"; "1"]; ["SMALL"];
        ["USER_CHARGES"]; ["@<TRIPOS>ATOM"];
        ["15"; "C1"; "0.0"; "0.0"; "0.0"; "C.3"; "1"; "LIG1"; "0.0"];
        ["26"; "C2"; "1.5"; "0.0"; "0.0"; "C.3"; "1"; "LIG1"; "0.0"];
        ["37"; "O1"; "2.0"; "1.0"; "0.0"; "O.3"; "1"; "LIG1"; "0.0"];
        ["@<TRIPOS>BOND"]; ["1"; "1"; "2"; "1"]]
  /\ tokens WAT1_right_aligned_result =
       [["@<TRIPOS>MOLECULE"]; ["WAT1"]; ["2"; "1"]; ["SMALL"];
        ["USER_CHARGES"]; ["@<TRIPOS>ATOM"];
        ["19"; "O"; "4.0"; "1.0"; "0.0"; "O.3"; "2"; "WAT1"; "0.0"];
        ["2"; "H1"; "4.5"; "1.5"; "0.0"; "H"; "2"; "WAT1"; "0.0"];
        ["@<TRIPOS>BOND"]; ["1"; "1"; "2"; "1"]].
Proof.
  split; [|split; [|split; [|split]]]; vm_compute; reflexivity.
Qed.

(** ** More on the engine *)

Section RepairMore.

Variable GetValenceList : Z -> list Z.
Variable perceive_valence : Mol -> nat -> Z.

Local Notation "'UPC'" := (UpdatePropertyCache perceive_valence).
Local Notation "'electrons'" := (electrons_of GetValenceList).
Local Notation "'loop'" := (neighbors_loop GetValenceList perceive_valence).
Local Notation "'process'" := (process_atom GetValenceList perceive_valence).

(** Neighbors that are passed over and are not the last one leave the loop
    where it was. *)
Lemma neighbors_loop_skip m a len pre : forall i rest,
  Forall (passed_over GetValenceList m a) pre ->
  (i + length pre <= len)%nat ->
  loop m a (electrons m a) len i (pre ++ rest)
  = loop m a (electrons m a) len (i + length pre) rest.
Proof.
  induction pre as [|p pre IH]; intros i rest Hpre Hlen.
  - simpl. by rewrite Nat.add_0_r.
  - apply Forall_cons in Hpre as [Hp Hpre]. simpl in *.
    replace (i + S (length pre))%nat with (S i + length pre)%nat by lia.
    destruct Hp as [-> | ->].
    + assert ((i =? len)%nat = false) as -> by (apply Nat.eqb_neq; lia).
      apply IH; [done | lia].
    + simpl. apply IH; [done | lia].
Qed.

(** X1.  The charge fallback of lines 43-47: an atom of the neighbor loop
    whose earlier neighbors are passed over and whose last neighbor shares no
    deficit with it takes the charge [-electrons[0]]; no bond changes. *)
Theorem last_neighbor_without_common_deficit_charges m a pre n e0 es :
  only_positive_charge GetValenceList m a = false ->
  GetNeighbors m a = pre ++ [n] ->
  Forall (passed_over GetValenceList m a) pre ->
  common_electrons (electrons m a) (electrons m n) = None ->
  electrons m a = e0 :: es ->
  (a < length (atoms m))%nat ->
  process m a = Returned (UPC (SetFormalCharge m a (- e0)))
  /\ GetFormalCharge (final (process m a)) a = - e0
  /\ bonds (final (process m a)) = bonds m.
Proof.
  intros Hpath Hns Hpre Hn He Ha.
  assert (Hp : process m a = Returned (UPC (SetFormalCharge m a (- e0)))).
  { rewrite process_atom_neighbors_path, Hns by done.
    rewrite neighbors_loop_skip by (rewrite ?length_app; simpl; lia || done).
    rewrite length_app. cbn [length neighbors_loop]. rewrite Hn, He.
    by assert ((1 + length pre =? length pre + 1)%nat = true) as ->
      by (apply Nat.eqb_eq; lia). }
  split; [done|]. rewrite Hp. cbn [final]. split; [|done].
  rewrite GetFormalCharge_UpdatePropertyCache.
  by apply GetFormalCharge_SetFormalCharge_eq.
Qed.

(** X2.  The fallback depends on the position of the neighbor: when every
    neighbor is passed over and the last one shares the deficit 0 as smallest
    value (or there is no neighbor), the atom of the neighbor loop is left as
    it is, cache included, even when earlier neighbors share nothing with it
    and its own deficits do not contain 0 alone. *)
Theorem last_neighbor_sharing_zero_leaves_atom m a :
  only_positive_charge GetValenceList m a = false ->
  Forall (passed_over GetValenceList m a) (GetNeighbors m a) ->
  (forall n, last (GetNeighbors m a) = Some n ->
             common_electrons (electrons m a) (electrons m n) = Some 0) ->
  process m a = Returned m.
Proof.
  intros Hpath Hall Hlast. rewrite process_atom_neighbors_path by done.
  destruct (GetNeighbors m a) as [|x l] eqn:E using rev_ind; [done|].
  clear IHl. apply Forall_app in Hall as [Hpre _].
  rewrite neighbors_loop_skip by (rewrite ?length_app; simpl; lia || done).
  simpl. rewrite (Hlast x) by apply last_snoc. done.
Qed.

(** *** Exceptions of the repair loop *)

Lemma GetNeighbors_bonds m m' a :
  bonds m' = bonds m -> GetNeighbors m' a = GetNeighbors m a.
Proof. unfold GetNeighbors. by intros ->. Qed.

Lemma upgrade_bond_returns m a n k :
  n ∈ GetNeighbors m a ->
  exists m', upgrade_bond perceive_valence m a n k = Returned m'.
Proof.
  intros (b & _ & Hb & _)%GetBondBetweenAtoms_neighbor.
  unfold upgrade_bond. rewrite Hb.
  destruct (k =? 1); [by eexists|]. destruct (k =? 2); by eexists.
Qed.

Lemma neighbors_loop_returns a es len rest : forall m i,
  es <> [] ->
  (forall n, n ∈ rest -> n ∈ GetNeighbors m a) ->
  exists m', loop m a es len i rest = Returned m'.
Proof.
  induction rest as [|n rest IH]; intros m i Hes Hin; simpl; [by eexists|].
  destruct (common_electrons es (electrons m n)) as [k|].
  - destruct (k =? 0).
    + apply IH; [done|]. intros x Hx. apply Hin. by right.
    + apply upgrade_bond_returns, Hin. left.
  - destruct (i =? len)%nat.
    + destruct es as [|e0 es']; [done|]. apply IH; [done|].
      intros x Hx. rewrite (GetNeighbors_bonds m) by done. apply Hin. by right.
    + apply IH; [done|]. intros x Hx. apply Hin. by right.
Qed.

Lemma repair_pass_returns m :
  (forall z, GetValenceList z <> []) ->
  exists m', repair_pass GetValenceList perceive_valence m = Returned m'.
Proof.
  intros Hne. unfold repair_pass.
  generalize (seq 0 (length (atoms m))). intros idxs. revert m.
  induction idxs as [|a idxs IH]; intros m; simpl; [by eexists|].
  assert (Hp : exists m', process m a = Returned m').
  { unfold process_atom. destruct (_ && _); [by eexists|].
    apply neighbors_loop_returns; [|done].
    unfold electrons_of. intros ?%fmap_nil_inv. by eapply Hne. }
  destruct Hp as [m' ->]. apply IH.
Qed.

(** X3.  With a periodic table whose valence lists are never empty, the
    repair loop raises nothing on any molecule: the bond that line 50 looks
    up always exists, because the other atom is a neighbor. *)
Theorem repair_loop_raises_nothing m :
  (forall z, GetValenceList z <> []) ->
  exists m', repair_pass GetValenceList perceive_valence m = Returned m'.
Proof. apply repair_pass_returns. Qed.

(** X22.  With such a periodic table, an exception of
    [update_bonds_and_charges] can only come from [SanitizeMol]: the call is
    the sanitization of the molecule that the repair loop leaves. *)
Theorem update_bonds_and_charges_ends_in_SanitizeMol
    (SanitizeMol : Mol -> outcome) m :
  (forall z, GetValenceList z <> []) ->
  update_bonds_and_charges GetValenceList perceive_valence SanitizeMol m
  = SanitizeMol (final (repair_pass GetValenceList perceive_valence m)).
Proof.
  intros Hne. unfold update_bonds_and_charges.
  by destruct (repair_pass_returns m Hne) as [m' ->].
Qed.

Lemma neighbors_loop_no_valence m a len rest : forall i,
  rest <> [] -> (i + length rest = len + 1)%nat ->
  loop m a [] len i rest = Raised IndexError m.
Proof.
  induction rest as [|n rest IH]; intros i Hne Hlen; [done|]. simpl in *.
  destruct rest as [|n' rest'].
  - simpl in Hlen. by assert ((i =? len)%nat = true) as ->
      by (apply Nat.eqb_eq; lia).
  - assert ((i =? len)%nat = false) as -> by (apply Nat.eqb_neq; simpl in *; lia).
    apply IH; [done | simpl in *; lia].
Qed.

(** X4.  An atom with at least one neighbor whose element has an empty
    valence list makes line 45 fail: [IndexError] on [electrons[0]], at the
    last neighbor, with the molecule as it was. *)
Theorem empty_valence_list_raises_IndexError m a :
  GetValenceList (GetAtomicNum m a) = [] ->
  GetNeighbors m a <> [] ->
  process m a = Raised IndexError m.
Proof.
  intros Hv Hn. unfold process_atom, electrons_of. rewrite Hv. simpl.
  apply neighbors_loop_no_valence; [done | lia].
Qed.

(** *** What the loop keeps *)

Lemma GetAtomicNum_SetFormalCharge m a c i :
  GetAtomicNum (SetFormalCharge m a c) i = GetAtomicNum m i.
Proof.
  unfold GetAtomicNum. simpl. destruct (decide (a = i)) as [->|Hne].
  - rewrite list_lookup_alter_eq. by destruct (atoms m !! i).
  - by rewrite list_lookup_alter_ne.
Qed.

Lemma GetAtomicNum_upgrade_bond m a n k i :
  GetAtomicNum (final (upgrade_bond perceive_valence m a n k)) i
  = GetAtomicNum m i.
Proof.
  unfold upgrade_bond.
  destruct (k =? 1); [|destruct (k =? 2)];
    try destruct (GetBondBetweenAtoms m a n) as [b|]; cbn [final];
    by rewrite ?GetAtomicNum_UpdatePropertyCache.
Qed.

Lemma GetAtomicNum_neighbors_loop es len ns x : forall m a i,
  GetAtomicNum (final (loop m a es len i ns)) x = GetAtomicNum m x.
Proof.
  induction ns as [|n ns IH]; intros m a i; simpl; [done|].
  destruct (common_electrons es (electrons m n)) as [k|].
  - destruct (k =? 0); [by apply IH | apply GetAtomicNum_upgrade_bond].
  - destruct (i =? len)%nat; [|by apply IH].
    destruct es as [|e0 es']; [done|].
    by rewrite IH, GetAtomicNum_UpdatePropertyCache,
      GetAtomicNum_SetFormalCharge.
Qed.

(** X5.  Processing an atom writes no formal charge but its own and changes
    no element. *)
Theorem process_atom_touches_only_its_charge m a :
  (forall x, x <> a ->
     GetFormalCharge (final (process m a)) x = GetFormalCharge m x)
  /\ (forall x, GetAtomicNum (final (process m a)) x = GetAtomicNum m x).
Proof.
  split; [intros x Hx; by apply charge_process_atom_ne|].
  intros x. unfold process_atom. destruct (_ && _).
  - cbn [final]. by rewrite GetAtomicNum_UpdatePropertyCache,
      GetAtomicNum_SetFormalCharge.
  - apply GetAtomicNum_neighbors_loop.
Qed.

Lemma in_sync_fixed m : in_sync perceive_valence m -> UPC m = m.
Proof.
  intros Hs. destruct m as [ats bs]. unfold UpdatePropertyCache. simpl.
  f_equal. apply list_eq. intros i. rewrite list_lookup_imap.
  destruct (ats !! i) as [x|] eqn:E; [|done]. simpl.
  rewrite <- (Hs i x E). by destruct x.
Qed.

Lemma neighbors_in_range m a n :
  bonds_in_range m -> n ∈ GetNeighbors m a -> (n < length (atoms m))%nat.
Proof.
  intros Hwf (b & Hb & Ho)%list_elem_of_omap.
  destruct (Hwf b Hb) as [? ?]. unfold other_end in Ho.
  destruct (BeginAtomIdx b =? a)%nat; [by injection Ho as <-|].
  destruct (EndAtomIdx b =? a)%nat; [by injection Ho as <-|done].
Qed.

Lemma atoms_loop_fixed idxs m :
  (forall a, a ∈ idxs -> process m a = Returned m) ->
  atoms_loop GetValenceList perceive_valence idxs m = Returned m.
Proof.
  induction idxs as [|a idxs IH]; intros H; simpl; [done|].
  rewrite H by left. apply IH. intros x Hx. apply H. by right.
Qed.

(** X6.  A molecule that needs no repair is a fixed point of the loop: when
    the cache is up to date and the deficits of every atom contain 0, the
    loop returns the molecule as it received it, bonds, charges and cache. *)
Theorem valid_molecule_is_left_alone m :
  in_sync perceive_valence m ->
  bonds_in_range m ->
  (forall a, (a < length (atoms m))%nat -> 0 ∈ electrons m a) ->
  repair_pass GetValenceList perceive_valence m = Returned m.
Proof.
  intros Hs Hwf H0. unfold repair_pass. apply atoms_loop_fixed.
  intros a Ha%elem_of_seq.
  assert (Hpath : only_positive_charge GetValenceList m a = false).
  { unfold only_positive_charge. apply andb_false_iff.
    pose proof (H0 a ltac:(lia)) as Hz.
    destruct (electrons m a) as [|e [|e' es]] eqn:E; [by left | | by left].
    right. apply list_elem_of_singleton in Hz as <-. done. }
  rewrite process_atom_neighbors_path by done.
  destruct (neighbors_loop_nonpositive GetValenceList perceive_valence
              m a (length (GetNeighbors m a)) 1 (GetNeighbors m a))
    as [-> | ->]; [|done|by rewrite in_sync_fixed].
  apply Forall_forall. intros n Hn.
  apply common_electrons_shared with (x := 0); [apply H0; lia|].
  apply H0. by eapply neighbors_in_range.
Qed.

Lemma in_sync_UpdatePropertyCache m :
  (forall x i, perceive_valence (UPC x) i = perceive_valence x i) ->
  in_sync perceive_valence (UPC m).
Proof.
  intros Hpv i x. simpl. rewrite list_lookup_imap.
  destruct (atoms m !! i); [|done]. simpl. intros [= <-]. simpl.
  by rewrite Hpv.
Qed.

Lemma in_sync_upgrade_bond m a n k :
  (forall x i, perceive_valence (UPC x) i = perceive_valence x i) ->
  in_sync perceive_valence m ->
  in_sync perceive_valence (final (upgrade_bond perceive_valence m a n k)).
Proof.
  intros Hpv Hs. unfold upgrade_bond.
  destruct (k =? 1); [|destruct (k =? 2)];
    try destruct (GetBondBetweenAtoms m a n) as [b|]; cbn [final];
    done || by apply in_sync_UpdatePropertyCache.
Qed.

Lemma in_sync_neighbors_loop es len ns : forall m a i,
  (forall x i, perceive_valence (UPC x) i = perceive_valence x i) ->
  in_sync perceive_valence m ->
  in_sync perceive_valence (final (loop m a es len i ns)).
Proof.
  induction ns as [|n ns IH]; intros m a i Hpv Hs; simpl; [done|].
  destruct (common_electrons es (electrons m n)) as [k|].
  - destruct (k =? 0); [by apply IH | by apply in_sync_upgrade_bond].
  - destruct (i =? len)%nat; [|by apply IH].
    destruct es as [|e0 es']; [done|].
    apply IH; [done|]. by apply in_sync_UpdatePropertyCache.
Qed.

(** X7.  The cache is refreshed after every edit: when the perceived
    valences do not depend on the cached ones, a molecule that enters the
    loop with an up-to-date cache leaves it with an up-to-date cache, also
    when the loop is left by an exception. *)
Theorem repair_loop_keeps_cache_in_sync m :
  (forall x i, perceive_valence (UPC x) i = perceive_valence x i) ->
  in_sync perceive_valence m ->
  in_sync perceive_valence (final (repair_pass GetValenceList perceive_valence m)).
Proof.
  intros Hpv. unfold repair_pass.
  generalize (seq 0 (length (atoms m))). intros idxs. revert m.
  induction idxs as [|a idxs IH]; intros m Hs; simpl; [done|].
  assert (Hp : in_sync perceive_valence (final (process m a))).
  { unfold process_atom. destruct (_ && _).
    - cbn [final]. by apply in_sync_UpdatePropertyCache.
    - by apply in_sync_neighbors_loop. }
  destruct (process m a) as [m'|e m']; cbn [final] in *; [by apply IH | done].
Qed.

End RepairMore.

Lemma valence_table_nonempty z : valence_table z <> [].
Proof.
  destruct z as [|p|p]; [done| |done].
  do 6 (try (destruct p as [p|p|]; try done)).
Qed.

Lemma bond_sum_valence_ignores_cache x i :
  bond_sum_valence (UpdatePropertyCache bond_sum_valence x) i
  = bond_sum_valence x i.
Proof. reflexivity. Qed.

Lemma build_mol_in_sync zs bs : in_sync bond_sum_valence (build_mol zs bs).
Proof.
  apply in_sync_UpdatePropertyCache, bond_sum_valence_ignores_cache.
Qed.

Lemma last_neighbor_without_common_deficit_charges_witness :
  GetFormalCharge
    (final (process_atom valence_table bond_sum_valence sulfone 0)) 0 = 2.
Proof.
  apply (last_neighbor_without_common_deficit_charges valence_table
           bond_sum_valence sulfone 0%nat [1; 2; 3]%nat 4%nat (-2) [0; 2]).
  - reflexivity.
  - reflexivity.
  - repeat constructor; (by right) || by left.
  - reflexivity.
  - reflexivity.
  - vm_compute. lia.
Defined.

Lemma last_neighbor_sharing_zero_leaves_atom_witness :
  process_atom valence_table bond_sum_valence sulfone_O_first 0
  = Returned sulfone_O_first.
Proof.
  apply (last_neighbor_sharing_zero_leaves_atom valence_table bond_sum_valence
           sulfone_O_first 0%nat).
  - reflexivity.
  - repeat constructor; (by right) || by left.
  - intros n Hn. vm_compute in Hn. injection Hn as <-. reflexivity.
Defined.

Lemma repair_loop_raises_nothing_witness :
  exists m', repair_pass valence_table bond_sum_valence formaldehyde
             = Returned m'.
Proof.
  apply (repair_loop_raises_nothing valence_table bond_sum_valence formaldehyde).
  exact valence_table_nonempty.
Defined.

Lemma empty_valence_list_raises_IndexError_witness :
  process_atom no_valence bond_sum_valence HSSH 1 = Raised IndexError HSSH.
Proof.
  apply (empty_valence_list_raises_IndexError no_valence bond_sum_valence
           HSSH 1%nat).
  - reflexivity.
  - discriminate.
Defined.

Lemma valid_molecule_is_left_alone_witness :
  repair_pass valence_table bond_sum_valence HSSH = Returned HSSH.
Proof.
  apply (valid_molecule_is_left_alone valence_table bond_sum_valence HSSH).
  - apply build_mol_in_sync.
  - intros b Hb. change (b ∈ [mkBond 0 1 SINGLE; mkBond 1 2 SINGLE;
                               mkBond 2 3 SINGLE]) in Hb.
    repeat (apply elem_of_cons in Hb as [->|Hb]; [vm_compute; lia|]).
    by apply elem_of_nil in Hb.
  - intros a Ha. change (a < 4)%nat in Ha.
    do 4 (destruct a as [|a]; [vm_compute; (left || (right; left))|]). lia.
Defined.

Lemma repair_loop_keeps_cache_in_sync_witness :
  in_sync bond_sum_valence
          (final (repair_pass valence_table bond_sum_valence formaldehyde)).
Proof.
  apply (repair_loop_keeps_cache_in_sync valence_table bond_sum_valence
           formaldehyde).
  - exact bond_sum_valence_ignores_cache.
  - apply build_mol_in_sync.
Defined.

(** ** Numbers and text *)

Lemma isdigit_not_sign c :
  Py.isdigit c = true ->
  Ascii.eqb c "_" = false /\ c <> "-"%char /\ c <> "+"%char.
Proof.
  destruct c as [[] [] [] [] [] [] [] []]; try discriminate; by repeat split.
Qed.

Lemma int_digits_all_digits s : forall acc b,
  all_digits s = true -> s <> "" \/ b = true ->
  exists z, Py.int_digits acc b s = Some z.
Proof.
  induction s as [|c s IH]; intros acc b Hs Hb; simpl.
  - destruct Hb as [?| ->]; [done | by eexists].
  - simpl in Hs. apply andb_true_iff in Hs as [Hc Hs].
    destruct (isdigit_not_sign c Hc) as (-> & _ & _). rewrite Hc.
    apply IH; [done | by right].
Qed.

Lemma int_unsigned c s :
  Py.isdigit c = true ->
  Py.int (String c s)
  = match Py.int_digits 0 false (String c s) with
    | Some z => Ok z
    | None => Raise ValueError
    end.
Proof.
  destruct c as [[] [] [] [] [] [] [] []]; try discriminate; reflexivity.
Qed.

Lemma int_digits_string_of_uint d : forall acc b,
  d <> Decimal.Nil \/ b = true ->
  Py.int_digits (Z.of_nat acc) b (NilEmpty.string_of_uint d)
  = Some (Z.of_nat (Nat.of_uint_acc d acc)).
Proof.
  induction d as [|d IH|d IH|d IH|d IH|d IH|d IH|d IH|d IH|d IH|d IH];
    intros acc b Hb;
    [destruct Hb as [?| ->]; done|..];
    cbn [NilEmpty.string_of_uint Py.int_digits Nat.of_uint_acc];
    rewrite Nat.tail_mul_spec;
    change (Ascii.eqb _ "_") with false; cbn iota;
    change (Py.isdigit _) with true; cbn iota;
    (match goal with
     | |- Py.int_digits ?z _ _ = Some (Z.of_nat (Nat.of_uint_acc _ ?k)) =>
         replace z with (Z.of_nat k) by (vm_compute N_of_ascii; lia)
     end);
    apply IH; by right.
Qed.

(** [int(str(n))] is [n]. *)
Lemma int_string_of_uint d :
  d <> Decimal.Nil ->
  Py.int (NilEmpty.string_of_uint d) = Ok (Z.of_nat (Nat.of_uint_acc d 0)).
Proof.
  intros Hd.
  pose proof (int_digits_string_of_uint d 0%nat false (or_introl Hd)) as H.
  change (Z.of_nat 0) with 0 in H.
  destruct d; [done|..]; cbn [NilEmpty.string_of_uint] in *;
    rewrite int_unsigned by reflexivity; by rewrite H.
Qed.

Lemma int_str (n : nat) : Py.int (Py.str n) = Ok (Z.of_nat n).
Proof.
  unfold Py.str, NilZero.string_of_uint.
  pose proof (DecimalNat.Unsigned.of_to n) as Hn. unfold Nat.of_uint in Hn.
  destruct (Nat.to_uint n) eqn:E; [simpl in Hn; by subst|..];
    (rewrite int_string_of_uint by done); by rewrite Hn.
Qed.

Lemma string_of_uint_all_digits d :
  all_digits (NilEmpty.string_of_uint d) = true.
Proof. induction d; simpl; done. Qed.

Lemma str_all_digits n : all_digits (Py.str n) = true /\ Py.str n <> "".
Proof.
  unfold Py.str, NilZero.string_of_uint.
  destruct (Nat.to_uint n); try done;
    (split; [apply (string_of_uint_all_digits (_ u)) | done]).
Qed.

Lemma digits_prefix_app d q :
  all_digits d = true -> digit_start q = false ->
  digits_prefix (d +:+ q) = d.
Proof.
  intros Hd Hq. induction d as [|c d IH].
  - destruct q as [|c q]; [done|]. simpl in *. by rewrite Hq.
  - simpl in Hd. apply andb_true_iff in Hd as [Hc Hd].
    change (String c d +:+ q) with (String c (d +:+ q)). simpl.
    by rewrite Hc, IH.
Qed.

Lemma search_digits_app p d q :
  no_digit p = true -> all_digits d = true -> d <> "" ->
  digit_start q = false ->
  search_digits (p +:+ d +:+ q) = Some d.
Proof.
  intros Hp Hd Hne Hq. induction p as [|c p IH].
  - change ("" +:+ d +:+ q) with (d +:+ q).
    destruct d as [|c d]; [done|]. simpl in Hd.
    apply andb_true_iff in Hd as [Hc Hd].
    change (String c d +:+ q) with (String c (d +:+ q)). simpl.
    by rewrite Hc, digits_prefix_app.
  - simpl in Hp. apply andb_true_iff in Hp as [Hc Hp].
    apply negb_true_iff in Hc.
    change (String c p +:+ d +:+ q) with (String c (p +:+ d +:+ q)). simpl.
    rewrite Hc. by apply IH.
Qed.

Lemma digits_prefix_all_digits s : all_digits (digits_prefix s) = true.
Proof.
  induction s as [|c s IH]; [done|]. simpl.
  destruct (Py.isdigit c) eqn:E; [|done]. simpl. by rewrite E.
Qed.

Lemma search_digits_None s : search_digits s = None <-> no_digit s = true.
Proof.
  induction s as [|c s IH]; [done|]. simpl.
  destruct (Py.isdigit c); simpl; [split; discriminate | done].
Qed.

Lemma search_digits_Some s g :
  search_digits s = Some g -> exists c g', g = String c g'
    /\ Py.isdigit c = true /\ all_digits g' = true.
Proof.
  induction s as [|c s IH]; [done|]. simpl.
  destruct (Py.isdigit c) eqn:E; [|done].
  intros [= <-]. eexists _, _. split; [done|]. split; [done|].
  apply digits_prefix_all_digits.
Qed.

Lemma all_digits_count s :
  all_digits s = true ->
  length (filter (fun c => Py.isdigit c = true) (list_ascii_of_string s))
  = String.length s.
Proof.
  induction s as [|c s IH]; [done|]. simpl. intros H.
  apply andb_true_iff in H as [Hc Hs].
  rewrite filter_cons_True by done. simpl. by rewrite IH.
Qed.

Lemma int_within_limit_digits s :
  all_digits s = true -> (String.length s <= int_max_str_digits)%nat ->
  int_within_limit s = Py.int s.
Proof.
  intros Hs Hlen. unfold int_within_limit. rewrite all_digits_count by done.
  by destruct (Nat.ltb_spec int_max_str_digits (String.length s)); [lia|].
Qed.

Lemma int_within_limit_too_long s :
  all_digits s = true -> (int_max_str_digits < String.length s)%nat ->
  int_within_limit s = Raise ValueError.
Proof.
  intros Hs Hlen. unfold int_within_limit. rewrite all_digits_count by done.
  by destruct (Nat.ltb_spec int_max_str_digits (String.length s)); [|lia].
Qed.

(** X8.  [get_resnumber] reads back the number written in a residue name:
    for a name made of a prefix without digit, the decimal writing of [n],
    of at most [int_max_str_digits] digits, and a suffix that does not start
    with a digit, the result is [n]. *)
Theorem get_resnumber_reads_the_first_number (p q : string) (n : nat) :
  no_digit p = true -> digit_start q = false ->
  (String.length (Py.str n) <= int_max_str_digits)%nat ->
  get_resnumber (p +:+ Py.str n +:+ q) = Ok (Z.of_nat n).
Proof.
  intros Hp Hq Hlen. unfold get_resnumber.
  destruct (str_all_digits n) as [Hd Hne].
  rewrite search_digits_app by done.
  rewrite int_within_limit_digits by done. apply int_str.
Qed.

Lemma int_digits_nonneg s : forall acc b z,
  0 <= acc -> Py.int_digits acc b s = Some z -> 0 <= z.
Proof.
  induction s as [|c s IH]; intros acc b z Hacc; simpl.
  - destruct b; [by intros [= <-] | done].
  - destruct (Ascii.eqb c "_").
    + destruct b; [by apply IH | done].
    + destruct (Py.isdigit c) eqn:Hc; [|done]. apply IH.
      unfold Py.isdigit in Hc. apply andb_true_iff in Hc as [Hc _].
      apply N.leb_le in Hc. lia.
Qed.

(** X9.  [get_resnumber] raises [AttributeError] exactly on the names
    without a digit (the match is [None]) and [ValueError] exactly on those
    whose first run of digits is longer than [int_max_str_digits]; it raises
    nothing else, and on every other name the digits make an integer, never
    negative. *)
Theorem get_resnumber_fails_without_digit (resname : string) :
  (get_resnumber resname = Raise AttributeError <-> no_digit resname = true)
  /\ (get_resnumber resname = Raise ValueError <->
      exists group, search_digits resname = Some group
        /\ (int_max_str_digits < String.length group)%nat)
  /\ (forall e, get_resnumber resname = Raise e ->
        e = AttributeError \/ e = ValueError)
  /\ (forall group, search_digits resname = Some group ->
        (String.length group <= int_max_str_digits)%nat ->
        exists z, get_resnumber resname = Ok z /\ 0 <= z).
Proof.
  unfold get_resnumber.
  destruct (search_digits resname) as [g|] eqn:E.
  - destruct (search_digits_Some _ _ E) as (c & g' & -> & Hc & Hg').
    assert (Hnd : no_digit resname = false).
    { destruct (no_digit resname) eqn:Hn; [|done].
      apply search_digits_None in Hn. congruence. }
    assert (Hall : all_digits (String c g') = true)
      by (simpl; by rewrite Hc).
    destruct (int_digits_all_digits (String c g') 0 false) as [z Hz];
      [done | by left |].
    assert (Hz0 : 0 <= z)
      by apply (int_digits_nonneg _ _ _ _ (Z.le_refl 0) Hz).
    destruct (Nat.le_gt_cases (String.length (String c g'))
                int_max_str_digits) as [Hlen|Hlen].
    + rewrite int_within_limit_digits by done.
      rewrite int_unsigned by done. rewrite Hz.
      split; [split; [done | congruence]|].
      split; [split; [done | intros (g & [= <-] & ?); lia]|].
      split; [done|]. intros g [= <-] _. by exists z.
    + rewrite int_within_limit_too_long by done.
      split; [split; [done | congruence]|].
      split; [split; [intros _; by eexists | done]|].
      split; [intros e [= <-]; by right|].
      intros g [= <-] ?. lia.
  - apply search_digits_None in E.
    split; [done|].
    split; [split; [done | by intros (g & ? & _)]|].
    split; [intros e [= <-]; by left | done].
Qed.

Lemma get_resnumber_reads_the_first_number_witness :
  get_resnumber ("LIG" +:+ Py.str 12 +:+ "A") = Ok 12.
Proof.
  apply (get_resnumber_reads_the_first_number "LIG" "A" 12);
    [reflexivity | reflexivity | vm_compute; lia].
Defined.

(** ** More on the reader *)

Lemma getitem_nat {A} (l : list A) (i : nat) :
  Py.getitem l (Z.of_nat i)
  = match l !! i with Some x => Ok x | None => Raise IndexError end.
Proof.
  unfold Py.getitem. cbv zeta.
  destruct (Z.of_nat i <? 0) eqn:E0; [apply Z.ltb_lt in E0; lia|].
  rewrite E0. cbn [orb]. rewrite Nat2Z.id.
  destruct (l !! i) eqn:E.
  - apply lookup_lt_Some in E.
    by assert ((Z.of_nat (length l) <=? Z.of_nat i) = false) as ->
      by (apply Z.leb_gt; lia).
  - by destruct (_ <=? _).
Qed.

Lemma getitem_0 {A} (l : list A) :
  Py.getitem l 0
  = match l !! 0%nat with Some x => Ok x | None => Raise IndexError end.
Proof. exact (getitem_nat l 0). Qed.

Lemma getitem_1 {A} (l : list A) :
  Py.getitem l 1
  = match l !! 1%nat with Some x => Ok x | None => Raise IndexError end.
Proof. exact (getitem_nat l 1). Qed.

Lemma getitem_2 {A} (l : list A) :
  Py.getitem l 2
  = match l !! 2%nat with Some x => Ok x | None => Raise IndexError end.
Proof. exact (getitem_nat l 2). Qed.

Lemma getitem_3 {A} (l : list A) :
  Py.getitem l 3
  = match l !! 3%nat with Some x => Ok x | None => Raise IndexError end.
Proof. exact (getitem_nat l 3). Qed.

Lemma getitem_7 {A} (l : list A) :
  Py.getitem l 7
  = match l !! 7%nat with Some x => Ok x | None => Raise IndexError end.
Proof. exact (getitem_nat l 7). Qed.

(** *** The record scanner *)

Lemma get_mol2_records_snoc lines line :
  get_mol2_records (lines ++ [line])
  = let '(mol_lines, first_atom_lines, first_bond_lines) :=
      get_mol2_records lines in
    match marker_of line with
    | Some MOLECULE =>
        (mol_lines ++ [length lines], first_atom_lines, first_bond_lines)
    | Some ATOM =>
        (mol_lines, first_atom_lines ++ [length lines], first_bond_lines)
    | Some BOND =>
        (mol_lines, first_atom_lines, first_bond_lines ++ [length lines])
    | None => (mol_lines, first_atom_lines, first_bond_lines)
    end.
Proof.
  unfold get_mol2_records, Py.enumerate, marker_of.
  rewrite imap_app, foldl_app. simpl. rewrite Nat.add_0_r.
  destruct (foldl _ _ _) as [[ml al] bl].
  destruct (Py.search "@<TRIPOS>MOLECULE" line); [done|].
  destruct (Py.search "@<TRIPOS>ATOM" line); [done|].
  by destruct (Py.search "@<TRIPOS>BOND" line).
Qed.


Lemma scanned_nil r : scanned r [] [].
Proof.
  split; [|constructor]. intros i. split; [by intros ?%elem_of_nil|].
  by intros (line & ? & _).
Qed.

Lemma scanned_snoc r lines found line :
  scanned r lines found ->
  (marker_of line = Some r ->
   scanned r (lines ++ [line]) (found ++ [length lines]))
  /\ (marker_of line <> Some r -> scanned r (lines ++ [line]) found).
Proof.
  intros [Hin Hs].
  assert (Hlt : forall i, i ∈ found -> (i < length lines)%nat).
  { intros i (l & Hl & _)%Hin. by apply lookup_lt_Some in Hl. }
  split; intros Hm; split.
  - intros i. rewrite elem_of_app, list_elem_of_singleton, Hin. split.
    + intros [(l & Hl & ?)| ->].
      * exists l. split; [|done]. by apply lookup_app_l_Some.
      * exists line. split; [|done]. by rewrite list_lookup_middle.
    + intros (l & Hl & Hr). apply lookup_app_Some in Hl as [Hl|[Hge Hl]].
      * left. by exists l.
      * right. apply list_lookup_singleton_Some in Hl as [? _]. lia.
  - apply StronglySorted_app. split; [|split; [done|]].
    + intros x1 x2 Hx1 ->%list_elem_of_singleton. by apply Hlt.
    + repeat constructor.
  - intros i. rewrite Hin. split.
    + intros (l & Hl & ?). exists l. split; [|done].
      by apply lookup_app_l_Some.
    + intros (l & Hl & Hr). apply lookup_app_Some in Hl as [Hl|[Hge Hl]].
      * by exists l.
      * apply list_lookup_singleton_Some in Hl as [_ <-]. done.
  - done.
Qed.

Lemma get_mol2_records_scanned lines :
  scanned MOLECULE lines (get_mol2_records lines).1.1
  /\ scanned ATOM lines (get_mol2_records lines).1.2
  /\ scanned BOND lines (get_mol2_records lines).2.
Proof.
  induction lines as [|line lines IH] using rev_ind.
  - split; [|split]; apply scanned_nil.
  - rewrite get_mol2_records_snoc.
    destruct (get_mol2_records lines) as [[ml al] bl]. simpl in IH.
    destruct IH as (Hm & Ha & Hb).
    destruct (scanned_snoc MOLECULE lines ml line Hm) as [Hm1 Hm2].
    destruct (scanned_snoc ATOM lines al line Ha) as [Ha1 Ha2].
    destruct (scanned_snoc BOND lines bl line Hb) as [Hb1 Hb2].
    destruct (marker_of line) as [[]|]; simpl;
      (split; [|split]); (by auto) || (by apply Hm2) || (by apply Ha2)
                         || (by apply Hb2).
Qed.

(** X10.  The scanner returns, for each of the three markers, the indices
    of the lines that start such a record, in file order and without
    repetition; a line that holds several markers counts once, for the first
    of MOLECULE, ATOM, BOND that it holds. *)
Theorem get_mol2_records_scans_in_order lines :
  scanned MOLECULE lines (get_mol2_records lines).1.1
  /\ scanned ATOM lines (get_mol2_records lines).1.2
  /\ scanned BOND lines (get_mol2_records lines).2.
Proof. apply get_mol2_records_scanned. Qed.

Section Mol2More.

Context {M : Type}.
Variable parse : string -> bool -> bool -> option (RDMol M).
Variable set_iter : list string -> list string.

Lemma no_marker_no_record r lines found :
  scanned r lines found ->
  (forall line, line ∈ lines -> marker_of line <> Some r) ->
  found = [].
Proof.
  intros [Hin _] Hno. destruct found as [|i found]; [done|].
  destruct (proj1 (Hin i)) as (line & Hl & Hr); [left|].
  by apply list_elem_of_lookup_2, Hno in Hl.
Qed.

(** X11.  A block in which no line starts a record of one of the three
    kinds makes the splitter fail with [IndexError] (the [item[0]] of line
    154), whatever else the block holds. *)
Theorem residues_from_block_needs_the_three_records block ignoreH r :
  (forall line, line ∈ block -> marker_of line <> Some r) ->
  residues_from_block parse set_iter block ignoreH = Raise IndexError.
Proof.
  intros Hno. unfold residues_from_block.
  destruct (get_mol2_records_scanned block) as (Hm & Ha & Hb).
  destruct (get_mol2_records block) as [[ml al] bl]. simpl in *.
  rewrite !getitem_0.
  assert (Hr : ml = [] \/ al = [] \/ bl = []).
  { destruct r; [left | right; left | right; right];
      by eapply no_marker_no_record. }
  destruct ml as [|m0 ml]; [done|]. destruct al as [|a0 al]; [done|].
  destruct bl as [|b0 bl]; [done|]. by destruct Hr as [?|[?|?]].
Qed.

(** X12.  On a file in which no line starts a record of one of the three
    kinds the reader returns the empty list, without an exception: the zip
    of line 123 is empty. *)
Theorem mol2_reader_without_a_record_kind text ignoreH r :
  (forall line, line ∈ Py.readlines text -> marker_of line <> Some r) ->
  mol2_reader parse set_iter text ignoreH = Ok [].
Proof.
  intros Hno. unfold mol2_reader.
  destruct (get_mol2_records_scanned (Py.readlines text))
    as (Hm & Ha & Hb).
  destruct (get_mol2_records (Py.readlines text)) as [[ml al] bl].
  simpl in *.
  assert (Hr : ml = [] \/ al = [] \/ bl = []).
  { destruct r; [left | right; left | right; right];
      by eapply no_marker_no_record. }
  destruct Hr as [->|[->| ->]]; [done|by destruct ml|].
  destruct ml; [done|]. by destruct al.
Qed.

(** *** The loop over the molecule records *)

Local Notation "'extract'" :=
  (fun lines ignoreH (r : nat * nat * nat) =>
     get_residues_from_mol2 parse set_iter (Z.of_nat r.1.1) (Z.of_nat r.1.2)
                            (Z.of_nat r.2) lines ignoreH).

Lemma read_molecules_cons r records lines ignoreH acc :
  read_molecules parse set_iter (r :: records) lines ignoreH acc
  = extract lines ignoreH r ≫= fun residues =>
      read_molecules parse set_iter records lines ignoreH (acc ++ residues).
Proof. by destruct r as [[? ?] ?]. Qed.

(** X13.  When the extraction of every molecule record returns, the reader
    returns the residues of all the molecules, molecule after molecule in
    file order. *)
Theorem mol2_reader_concatenates text ignoreH rss :
  let lines := Py.readlines text in
  let records := zip3 (get_mol2_records lines).1.1 (get_mol2_records lines).1.2
                      (get_mol2_records lines).2 in
  Forall2 (fun r residues => extract lines ignoreH r = Ok residues)
          records rss ->
  mol2_reader parse set_iter text ignoreH = Ok (concat rss).
Proof.
  intros lines records HF.
  assert (Hgen : forall acc,
            read_molecules parse set_iter records lines ignoreH acc
            = Ok (acc ++ concat rss)).
  { induction HF as [|r rs records' rss' Hr _ IH]; intros acc.
    - simpl. by rewrite app_nil_r.
    - rewrite read_molecules_cons, Hr. simpl. rewrite IH.
      by rewrite <- app_assoc. }
  unfold mol2_reader. fold lines. subst records.
  destruct (get_mol2_records lines) as [[ml al] bl]. apply (Hgen []).
Qed.

(** X14.  An exception in the extraction of one molecule record is the
    outcome of the whole read: the residues of the molecules read before it
    are lost, and the records after it are not read. *)
Theorem mol2_reader_fails_as_a_whole text ignoreH pre r post e :
  let lines := Py.readlines text in
  zip3 (get_mol2_records lines).1.1 (get_mol2_records lines).1.2
       (get_mol2_records lines).2 = pre ++ r :: post ->
  Forall (fun r' => exists residues, extract lines ignoreH r' = Ok residues)
         pre ->
  extract lines ignoreH r = Raise e ->
  mol2_reader parse set_iter text ignoreH = Raise e.
Proof.
  intros lines Hz Hpre Hr.
  assert (Hgen : forall acc,
            read_molecules parse set_iter (pre ++ r :: post) lines ignoreH acc
            = Raise e).
  { clear Hz. induction Hpre as [|r' pre' [rs Hrs] _ IH]; intros acc.
    - simpl app. by rewrite read_molecules_cons, Hr.
    - simpl app. rewrite read_molecules_cons, Hrs. simpl. apply IH. }
  unfold mol2_reader. fold lines.
  destruct (get_mol2_records lines) as [[ml al] bl]. simpl in Hz.
  rewrite Hz. apply (Hgen []).
Qed.

(** *** The block of a molecule *)

Lemma slice_in_range {A} (l : list A) (start stop : Z) :
  0 <= start <= stop -> stop <= Z.of_nat (length l) ->
  Py.slice l start stop
  = take (Z.to_nat (stop - start)) (drop (Z.to_nat start) l).
Proof.
  intros Hs He. unfold Py.slice, Py.clip.
  assert ((start <? 0) = false) as -> by (apply Z.ltb_ge; lia).
  assert ((stop <? 0) = false) as -> by (apply Z.ltb_ge; lia).
  by rewrite !Z.min_l by lia.
Qed.

(** X15.  When the announced counts stay within the input, the block of a
    molecule is made of the lines from the MOLECULE line on, up to
    [num_atoms + num_bonds + 2] lines after the ATOM line: the lines before
    the ATOM line, that line, the atom lines, one line taken for the BOND
    line and the bond lines. *)
Theorem get_residues_from_mol2_block_in_range
    mol_line first_atom_line first_bond_line lines ignoreH num_atoms num_bonds :
  read_counts lines mol_line = Ok (num_atoms, num_bonds) ->
  0 <= mol_line <= first_atom_line + num_atoms + num_bonds + 2 ->
  first_atom_line + num_atoms + num_bonds + 2 <= Z.of_nat (length lines) ->
  let block :=
    take (Z.to_nat (first_atom_line - mol_line + num_atoms + num_bonds + 2))
         (drop (Z.to_nat mol_line) lines) in
  get_residues_from_mol2 parse set_iter mol_line first_atom_line
                         first_bond_line lines ignoreH
  = residues_from_block parse set_iter block ignoreH
  /\ Z.of_nat (length block)
     = first_atom_line - mol_line + num_atoms + num_bonds + 2.
Proof.
  intros Hc Hm Hlen block. split.
  - unfold get_residues_from_mol2. rewrite Hc. simpl. f_equal.
    rewrite slice_in_range by lia. subst block. do 2 f_equal. lia.
  - subst block. rewrite length_take, length_drop. lia.
Qed.

End Mol2More.

(** *** Grouping the lines by residue *)

Lemma empty_buckets_lookup resnames r :
  empty_buckets resnames !! r = if decide (r ∈ resnames) then Some [] else None.
Proof.
  unfold empty_buckets.
  assert (Hgen : forall (d : gmap string (list string)),
            foldl (fun d resname => <[resname := []]> d) d resnames !! r
            = if decide (r ∈ resnames) then Some [] else d !! r).
  { induction resnames as [|x resnames IH]; intros d; simpl.
    - destruct (decide (r ∈ [])) as [Hin|_]; [by apply elem_of_nil in Hin|done].
    - rewrite IH.
      destruct (decide (r ∈ resnames)) as [Hin|Hnin],
               (decide (r ∈ x :: resnames)) as [Hin'|Hnin']; try done.
      + exfalso. apply Hnin'. by right.
      + apply elem_of_cons in Hin' as [->|?]; [apply lookup_insert_eq | done].
      + apply lookup_insert_ne. intros ->. apply Hnin'. left. }
  rewrite Hgen. by destruct (decide _).
Qed.

Lemma resnames_of_lines atom_lines names :
  resnames_of atom_lines = Ok names ->
  Forall2 (fun line name => residue_of_line line = Some name) atom_lines names.
Proof.
  revert names. induction atom_lines as [|line ls IH]; intros names; simpl.
  - by intros [= <-].
  - rewrite getitem_7. unfold residue_of_line.
    destruct (Py.split line !! 7%nat) as [name|] eqn:E; simpl; [|done].
    destruct (resnames_of ls) as [names'|]; simpl; [|done].
    intros [= <-]. constructor; [exact E | by apply IH].
Qed.

Lemma assign_atoms_buckets atom_lines : forall buckets map_id_to_res names,
  resnames_of atom_lines = Ok names ->
  (forall name, name ∈ names -> is_Some (buckets !! name)) ->
  exists atoms map_id_to_res',
    assign_atoms atom_lines buckets map_id_to_res = Ok (atoms, map_id_to_res')
    /\ forall r, atoms !! r
         = (fun l0 => l0 ++ filter (fun line => residue_of_line line = Some r)
                                   atom_lines) <$> buckets !! r.
Proof.
  induction atom_lines as [|line ls IH]; intros buckets map names; simpl.
  - intros _ _. eexists _, _. split; [done|]. intros r.
    destruct (buckets !! r); simpl; by rewrite ?app_nil_r.
  - rewrite getitem_7, getitem_0.
    destruct (Py.split line !! 7%nat) as [name|] eqn:E7; simpl; [|done].
    destruct (resnames_of ls) as [names'|] eqn:En; simpl; [|done].
    intros [= <-] Hb.
    destruct (Py.split line !! 0%nat) as [atom_id|] eqn:E0; simpl.
    2:{ apply lookup_ge_None in E0. apply lookup_lt_Some in E7. lia. }
    destruct (Hb name) as [bucket Hbucket]; [left|].
    unfold dict_get at 1. rewrite Hbucket. simpl.
    destruct (IH (<[name := bucket ++ [line]]> buckets)
                 (<[atom_id := name]> map) names' eq_refl)
      as (atoms & map' & -> & Hat).
    { intros x Hx. destruct (decide (x = name)) as [->|Hne].
      - rewrite lookup_insert_eq. by eexists.
      - rewrite lookup_insert_ne by done. apply Hb. by right. }
    eexists _, _. split; [done|]. intros r. rewrite Hat.
    destruct (decide (r = name)) as [->|Hne].
    + rewrite lookup_insert_eq, Hbucket. simpl.
      rewrite filter_cons_True by done. by rewrite <- app_assoc.
    + rewrite lookup_insert_ne by done.
      rewrite filter_cons_False; [done|].
      unfold residue_of_line. rewrite E7. congruence.
Qed.

(** X16.  When every atom line has its 8 fields, the atom lines are
    grouped without an exception: the bucket of a residue name holds the
    atom lines that name it, in their order in the block, and there is no
    bucket for a name that is not iterated. *)
Theorem assign_atoms_groups_by_residue atom_lines names resnames :
  resnames_of atom_lines = Ok names ->
  (forall name, name ∈ names -> name ∈ resnames) ->
  exists atoms map_id_to_res,
    assign_atoms atom_lines (empty_buckets resnames) ∅
    = Ok (atoms, map_id_to_res)
    /\ (forall r, r ∈ resnames ->
          atoms !! r
          = Some (filter (fun line => residue_of_line line = Some r)
                         atom_lines))
    /\ (forall r, r ∉ resnames -> atoms !! r = None).
Proof.
  intros Hn Hsub.
  destruct (assign_atoms_buckets atom_lines (empty_buckets resnames) ∅ names Hn)
    as (atoms & map & Ha & Hat).
  { intros name Hname. rewrite empty_buckets_lookup.
    rewrite decide_True by by apply Hsub. by eexists. }
  exists atoms, map. split; [done|].
  split; intros r Hr; rewrite Hat, empty_buckets_lookup.
  - by rewrite decide_True.
  - by rewrite decide_False.
Qed.

Lemma assign_bonds_buckets bond_lines map_id_to_res :
  forall buckets bonds,
  assign_bonds bond_lines map_id_to_res buckets = Ok bonds ->
  forall r, bonds !! r
    = (fun l0 => l0 ++ filter (fun line =>
                                 residue_of_bond map_id_to_res line = Some r)
                              bond_lines) <$> buckets !! r.
Proof.
  induction bond_lines as [|line ls IH]; intros buckets bonds; simpl.
  - intros [= <-] r. destruct (buckets !! r); simpl; by rewrite ?app_nil_r.
  - rewrite getitem_1, getitem_2. unfold dict_get.
    destruct (Py.split line !! 1%nat) as [atom1|] eqn:E1; simpl; [|done].
    destruct (Py.split line !! 2%nat) as [atom2|] eqn:E2; simpl; [|done].
    destruct (map_id_to_res !! atom1) as [res1|] eqn:R1; simpl; [|done].
    destruct (map_id_to_res !! atom2) as [res2|] eqn:R2; simpl; [|done].
    assert (Hrb : residue_of_bond map_id_to_res line
                  = if String.eqb res1 res2 then Some res1 else None).
    { unfold residue_of_bond. rewrite E1, E2. simpl. by rewrite R1, R2. }
    destruct (String.eqb res1 res2) eqn:Heq.
    + destruct (buckets !! res1) as [bucket|] eqn:Hb; simpl; [|done].
      intros Hbonds r. rewrite (IH _ _ Hbonds).
      destruct (decide (r = res1)) as [->|Hne].
      * rewrite lookup_insert_eq, Hb. simpl.
        rewrite filter_cons_True by done. by rewrite <- app_assoc.
      * rewrite lookup_insert_ne by done.
        rewrite filter_cons_False; [done|]. rewrite Hrb. congruence.
    + intros Hbonds r. rewrite (IH _ _ Hbonds).
      rewrite filter_cons_False; [done|]. by rewrite Hrb.
Qed.

(** X17.  A bond line goes to the bucket of the residue of its two atoms
    when both belong to the same residue, and to no bucket otherwise: the
    bucket of a residue holds, in their order, exactly the bond lines whose
    two atoms the id map sends to that residue. *)
Theorem assign_bonds_keeps_bonds_within_a_residue
    bond_lines map_id_to_res resnames bonds :
  assign_bonds bond_lines map_id_to_res (empty_buckets resnames) = Ok bonds ->
  (forall r, r ∈ resnames ->
     bonds !! r
     = Some (filter (fun line => residue_of_bond map_id_to_res line = Some r)
                    bond_lines))
  /\ (forall r, r ∉ resnames -> bonds !! r = None)
  /\ (forall line, line ∈ bond_lines ->
        residue_of_bond map_id_to_res line = None ->
        forall r l, bonds !! r = Some l -> line ∉ l).
Proof.
  intros Hb. pose proof (assign_bonds_buckets _ _ _ _ Hb) as Hl.
  split; [|split].
  - intros r Hr. by rewrite Hl, empty_buckets_lookup, decide_True.
  - intros r Hr. by rewrite Hl, empty_buckets_lookup, decide_False.
  - intros line _ Hnone r l. rewrite Hl, empty_buckets_lookup.
    destruct (decide _); [|done]. simpl. intros [= <-].
    intros [? _]%list_elem_of_filter. congruence.
Qed.

(** *** The lines that the splitter writes *)

Lemma no_blank_app s t :
  no_blank s = true -> no_blank t = true -> no_blank (s +:+ t) = true.
Proof.
  intros Hs Ht. induction s as [|c s IH]; [done|]. simpl in Hs.
  apply andb_true_iff in Hs as [Hc Hs].
  change (String c s +:+ t) with (String c (s +:+ t)). simpl.
  by rewrite Hc, IH.
Qed.

(** The fields that [split] returns are not empty and hold no blank. *)
Lemma split_go_fields s : forall cur t,
  no_blank cur = true -> t ∈ Py.split_go cur s ->
  t <> "" /\ no_blank t = true.
Proof.
  induction s as [|c s IH]; intros cur t Hcur; simpl.
  - destruct cur; [by intros ?%elem_of_nil|].
    by intros ->%list_elem_of_singleton.
  - destruct (Py.isspace c) eqn:Hc.
    + destruct cur as [|d cur]; [by apply IH|].
      intros [->|Ht]%elem_of_cons; [done | by apply (IH "")].
    + apply IH, no_blank_app; [done|]. simpl. by rewrite Hc.
Qed.

Lemma split_fields s t : t ∈ Py.split s -> t <> "" /\ no_blank t = true.
Proof. by apply split_go_fields. Qed.

Lemma split_field_blank (a rest : string) :
  a <> "" -> no_blank a = true ->
  Py.split (a +:+ " " +:+ rest) = a :: Py.split rest.
Proof. intros Ha Hb. by rewrite split_first_field. Qed.

Lemma split_field_newline (a : string) :
  a <> "" -> no_blank a = true -> Py.split (a +:+ nl) = [a].
Proof. intros Ha Hb. by rewrite split_first_field. Qed.

(** X18.  Every bond line that is renumbered comes out as four fields: the
    rank of the line in its residue, counted from 1, the local ids that the
    id map gives to its two atoms, and its bond type, as it was. *)
Theorem renumber_bonds_writes_four_fields bond_lines map_atoms :
  forall i acc new_bonds,
  renumber_bonds i bond_lines map_atoms acc = Ok new_bonds ->
  exists written,
    new_bonds = acc ++ written
    /\ length written = length bond_lines
    /\ forall j line, bond_lines !! j = Some line ->
         exists atom1 atom2 bond_type id1 id2 out,
           Py.split line !! 1%nat = Some atom1
           /\ Py.split line !! 2%nat = Some atom2
           /\ Py.split line !! 3%nat = Some bond_type
           /\ map_atoms !! atom1 = Some id1
           /\ map_atoms !! atom2 = Some id2
           /\ written !! j = Some out
           /\ Py.split out
              = [Py.str (i + j + 1); Py.str id1; Py.str id2; bond_type].
Proof.
  induction bond_lines as [|line ls IH]; intros i acc new_bonds; simpl.
  - intros [= <-]. exists []. by rewrite app_nil_r.
  - rewrite getitem_1, getitem_2, getitem_3. unfold dict_get.
    destruct (Py.split line !! 1%nat) as [atom1|] eqn:E1; simpl; [|done].
    destruct (Py.split line !! 2%nat) as [atom2|] eqn:E2; simpl; [|done].
    destruct (Py.split line !! 3%nat) as [bond_type|] eqn:E3; simpl; [|done].
    destruct (map_atoms !! atom1) as [id1|] eqn:M1; simpl; [|done].
    destruct (map_atoms !! atom2) as [id2|] eqn:M2; simpl; [|done].
    intros Hnew. destruct (IH _ _ _ Hnew) as (written & -> & Hlen & Hw).
    eexists (_ :: written). split; [by rewrite <- app_assoc|].
    split; [simpl; lia|]. intros [|j] l Hl; simpl in Hl.
    + injection Hl as <-. exists atom1, atom2, bond_type, id1, id2.
      eexists. repeat split; try done.
      destruct (split_fields line bond_type) as [Ht Htb];
        [by eapply list_elem_of_lookup_2|].
      destruct (str_is_a_field (i + 1)) as [? ?].
      destruct (str_is_a_field id1) as [? ?].
      destruct (str_is_a_field id2) as [? ?].
      replace (i + 0 + 1)%nat with (i + 1)%nat by lia.
      rewrite !split_field_blank by done. by rewrite split_field_newline.
    + destruct (Hw j l Hl) as (a1 & a2 & t & i1 & i2 & out & H).
      exists a1, a2, t, i1, i2, out.
      replace (i + S j + 1)%nat with (S i + j + 1)%nat by lia. done.
Qed.

Lemma no_newline_app s t :
  no_newline s = true -> no_newline t = true -> no_newline (s +:+ t) = true.
Proof.
  intros Hs Ht. induction s as [|c s IH]; [done|]. simpl in Hs.
  apply andb_true_iff in Hs as [Hc Hs].
  change (String c s +:+ t) with (String c (s +:+ t)). simpl.
  by rewrite Hc, IH.
Qed.

Lemma no_blank_no_newline s : no_blank s = true -> no_newline s = true.
Proof.
  induction s as [|c s IH]; [done|]. simpl.
  intros [Hc Hs]%andb_true_iff. rewrite IH by done.
  destruct (Ascii.eqb_spec c "010") as [->|]; done.
Qed.

Lemma readlines_go_line s : forall cur rest,
  no_newline s = true ->
  Py.readlines_go cur (s +:+ nl +:+ rest)
  = (cur +:+ s +:+ nl) :: Py.readlines rest.
Proof.
  induction s as [|c s IH]; intros cur rest Hs.
  - done.
  - simpl in Hs. apply andb_true_iff in Hs as [Hc Hs].
    apply negb_true_iff in Hc.
    change (String c s +:+ nl +:+ rest) with (String c (s +:+ nl +:+ rest)).
    simpl. rewrite Hc, IH by done. f_equal.
    by rewrite str_app_assoc.
Qed.

Lemma readlines_line s rest :
  no_newline s = true ->
  Py.readlines (s +:+ nl +:+ rest) = (s +:+ nl) :: Py.readlines rest.
Proof. apply (readlines_go_line s ""). Qed.

(** X19.  The counts written in a block that the splitter synthesizes are
    read back as written: the molecule record of the block announces the
    number of its atom lines and the number of its bond lines. *)
Theorem synthesized_block_announces_its_counts resname new_atoms new_bonds :
  no_newline resname = true ->
  read_counts (Py.readlines (residue_mol2_block resname new_atoms new_bonds)) 0
  = Ok (Z.of_nat (length new_atoms), Z.of_nat (length new_bonds)).
Proof.
  intros Hname. unfold residue_mol2_block.
  set (a := Py.str (length new_atoms)). set (b := Py.str (length new_bonds)).
  destruct (str_is_a_field (length new_atoms)) as [Ha Hab].
  destruct (str_is_a_field (length new_bonds)) as [Hb Hbb].
  fold a in Ha, Hab. fold b in Hb, Hbb.
  rewrite readlines_line by done. rewrite readlines_line by done.
  match goal with
  | |- context [Py.readlines (a +:+ " " +:+ b +:+ nl +:+ ?rest)] =>
      replace (a +:+ " " +:+ b +:+ nl +:+ rest)
        with ((a +:+ " " +:+ b) +:+ nl +:+ rest)
        by (by rewrite !str_app_assoc)
  end.
  rewrite readlines_line.
  2:{ apply no_newline_app; [by apply no_blank_no_newline|].
      by apply (no_newline_app " "), no_blank_no_newline. }
  unfold read_counts. simpl Z.add. rewrite getitem_2. simpl lookup.
  cbn [mbind result_bind].
  replace ((a +:+ " " +:+ b) +:+ nl) with (a +:+ " " +:+ b +:+ nl)
    by (by rewrite !str_app_assoc).
  rewrite split_field_blank, split_field_newline by done.
  rewrite getitem_0, getitem_1. simpl lookup. cbn [mbind result_bind].
  subst a b. by rewrite !int_str.
Qed.

(** *** The residues that come back *)

Section Mol2Names.

Context {M : Type}.
Variable parse : string -> bool -> bool -> option (RDMol M).
Variable set_iter : list string -> list string.

Lemma build_residues_tags atoms bonds ignoreH names : forall acc residues,
  build_residues parse names atoms bonds ignoreH acc = Ok residues ->
  exists kept built,
    residues = acc ++ built
    /\ kept `sublist_of` names
    /\ Forall2 (fun r name => GetProp r "resname" = Some name) built kept.
Proof.
  induction names as [|name names IH]; intros acc residues; simpl.
  - intros [= <-]. exists [], []. by rewrite app_nil_r.
  - destruct (dict_get atoms name) as [atom_lines|]; simpl; [|done].
    destruct (renumber_atoms 0 atom_lines ∅ []) as [[map_atoms new_atoms]|];
      simpl; [|done].
    destruct (dict_get bonds name) as [bond_lines|]; simpl; [|done].
    destruct (renumber_bonds 0 bond_lines map_atoms []) as [new_bonds|];
      simpl; [|done].
    destruct (parse _ true ignoreH) as [m|].
    + intros (kept & built & -> & Hsub & HF)%IH.
      exists (name :: kept), (SetProp m "resname" name :: built).
      rewrite <- app_assoc. split; [done|]. split; [by constructor|].
      constructor; [|done]. unfold GetProp, SetProp. simpl.
      by rewrite lookup_insert_eq.
    + intros (kept & built & -> & Hsub & HF)%IH.
      exists kept, built. split; [done|]. split; [by constructor | done].
Qed.

(** X20.  The splitter returns at most one residue for each residue name
    that it iterates, in the order of the iteration, and every residue that
    it returns carries its name as the property [resname]. *)
Theorem residues_from_block_returns_tagged_residues block ignoreH residues :
  residues_from_block parse set_iter block ignoreH = Ok residues ->
  exists first_atom_line first_bond_line num_atoms num_bonds names kept,
    block_header block
    = Ok (first_atom_line, first_bond_line, num_atoms, num_bonds, names)
    /\ kept `sublist_of` set_iter names
    /\ Forall2 (fun r name => GetProp r "resname" = Some name) residues kept.
Proof.
  rewrite residues_from_block_header.
  destruct (block_header block) as [[[[[fa fb] na] nb] names]|]; [|done].
  simpl. unfold group_and_build.
  destruct (assign_atoms _ _ _) as [[atoms map_id_to_res]|]; simpl; [|done].
  destruct (assign_bonds _ _ _) as [bonds|]; simpl; [|done].
  intros (kept & built & -> & Hsub & HF)%build_residues_tags.
  by exists fa, fb, na, nb, names, kept.
Qed.

End Mol2Names.

(** *** The reader on concrete inputs, again *)

Lemma residues_from_block_needs_the_three_records_witness :
  residues_from_block text_parser first_seen (Py.readlines no_bond_text) false
  = Raise IndexError.
Proof.
  apply (residues_from_block_needs_the_three_records text_parser first_seen
           (Py.readlines no_bond_text) false BOND).
  intros line Hl.
  let l := eval vm_compute in (Py.readlines no_bond_text) in
  change (line ∈ l) in Hl.
  repeat (apply elem_of_cons in Hl as [->|Hl]; [vm_compute; discriminate|]).
  by apply elem_of_nil in Hl.
Defined.

Lemma mol2_reader_without_a_record_kind_witness :
  mol2_reader text_parser first_seen no_bond_text false = Ok [].
Proof.
  apply (mol2_reader_without_a_record_kind text_parser first_seen
           no_bond_text false BOND).
  intros line Hl.
  let l := eval vm_compute in (Py.readlines no_bond_text) in
  change (line ∈ l) in Hl.
  repeat (apply elem_of_cons in Hl as [->|Hl]; [vm_compute; discriminate|]).
  by apply elem_of_nil in Hl.
Defined.

Lemma mol2_reader_concatenates_witness :
  mol2_reader text_parser first_seen two_molecules_file false
  = Ok (concat [[handed "LIG1" no_bond_record_block];
                [handed "LIG2" LIG2_block]]).
Proof.
  apply (mol2_reader_concatenates text_parser first_seen two_molecules_file
           false [[handed "LIG1" no_bond_record_block];
                  [handed "LIG2" LIG2_block]]).
  let r := eval vm_compute in
    (zip3 (get_mol2_records (Py.readlines two_molecules_file)).1.1
          (get_mol2_records (Py.readlines two_molecules_file)).1.2
          (get_mol2_records (Py.readlines two_molecules_file)).2) in
  change (zip3 _ _ _) with r.
  repeat constructor; vm_compute; reflexivity.
Defined.

Lemma mol2_reader_fails_as_a_whole_witness :
  mol2_reader text_parser first_seen bad_count_file false = Raise ValueError.
Proof.
  apply (mol2_reader_fails_as_a_whole text_parser first_seen bad_count_file
           false [(0, 5, 7)]%nat (8, 13, 15)%nat [] ValueError).
  - vm_compute. reflexivity.
  - repeat constructor. eexists. vm_compute. reflexivity.
  - vm_compute. reflexivity.
Defined.

Lemma get_residues_from_mol2_block_in_range_witness :
  Z.of_nat (length (take (Z.to_nat (5 - 0 + 5 + 3 + 2))
                         (drop (Z.to_nat 0) (Py.readlines ex_block)))) = 15.
Proof.
  apply (get_residues_from_mol2_block_in_range text_parser first_seen
           0 5 11 (Py.readlines ex_block) false 5 3).
  - vm_compute. reflexivity.
  - lia.
  - vm_compute. discriminate.
Defined.

Lemma assign_atoms_groups_by_residue_witness :
  exists atoms map_id_to_res,
    assign_atoms ex_atom_lines (empty_buckets ["LIG1"; "WAT1"]) ∅
    = Ok (atoms, map_id_to_res)
    /\ atoms !! "WAT1"
       = Some (filter (fun line => residue_of_line line = Some "WAT1")
                      ex_atom_lines).
Proof.
  destruct (assign_atoms_groups_by_residue ex_atom_lines
              ["LIG1"; "LIG1"; "LIG1"; "WAT1"; "WAT1"] ["LIG1"; "WAT1"])
    as (atoms & map & Ha & Hin & _).
  - vm_compute. reflexivity.
  - intros name Hn.
    repeat (apply elem_of_cons in Hn as [->|Hn];
            [(by left) || (by right; left)|]).
    by apply elem_of_nil in Hn.
  - exists atoms, map. split; [done|]. apply Hin. right. left.
Defined.

Lemma assign_bonds_keeps_bonds_within_a_residue_witness :
  ("2 7 9 1" +:+ nl) ∉ ["1 5 6 1" +:+ nl].
Proof.
  destruct (assign_bonds_keeps_bonds_within_a_residue ex_bond_lines
              ex_map_id_to_res ["LIG1"; "WAT1"]
              (list_to_map [("LIG1", ["1 5 6 1" +:+ nl]);
                            ("WAT1", ["3 9 10 1" +:+ nl])]))
    as (_ & _ & H).
  - vm_compute. reflexivity.
  - apply (H ("2 7 9 1" +:+ nl)) with (r := "LIG1").
    + let l := eval vm_compute in ex_bond_lines in change ex_bond_lines with l.
      right. left.
    + vm_compute. reflexivity.
    + vm_compute. reflexivity.
Defined.

Lemma renumber_atoms_flush_left_witness :
  exists map_atoms' new_atoms,
    renumber_atoms 0 ["5 C1 0.0" +:+ nl; "6 C2 1.5" +:+ nl] ∅ []
    = Ok (map_atoms', [] ++ new_atoms)
    /\ length new_atoms = 2%nat.
Proof.
  destruct (renumber_atoms_flush_left ["5 C1 0.0" +:+ nl; "6 C2 1.5" +:+ nl]
              0 ∅ [])
    as (map' & new & H1 & H2 & _).
  - repeat constructor.
    + exists "5", (" C1 0.0" +:+ nl). by repeat split.
    + exists "6", (" C2 1.5" +:+ nl). by repeat split.
  - by exists map', new.
Defined.

Lemma renumber_bonds_writes_four_fields_witness :
  exists written,
    ["1 1 2 1" +:+ nl] = [] ++ written /\ length written = 1%nat.
Proof.
  destruct (renumber_bonds_writes_four_fields ["7 5 6 1" +:+ nl]
              (list_to_map [("5", 1%nat); ("6", 2%nat)]) 0 []
              ["1 1 2 1" +:+ nl])
    as (written & H1 & H2 & _).
  - vm_compute. reflexivity.
  - by exists written.
Defined.

Lemma synthesized_block_announces_its_counts_witness :
  read_counts
    (Py.readlines (residue_mol2_block "LIG1" ["1 C1" +:+ nl; "2 C2" +:+ nl]
                                      ["1 1 2 1" +:+ nl])) 0
  = Ok (2, 1).
Proof.
  apply (synthesized_block_announces_its_counts "LIG1"
           ["1 C1" +:+ nl; "2 C2" +:+ nl] ["1 1 2 1" +:+ nl]).
  reflexivity.
Defined.

Lemma residues_from_block_returns_tagged_residues_witness :
  exists kept,
    kept `sublist_of` first_seen ["LIG1"; "LIG1"; "LIG1"; "WAT1"; "WAT1"]
    /\ Forall2 (fun r name => GetProp r "resname" = Some name)
               [handed "LIG1" LIG1_block] kept.
Proof.
  destruct (residues_from_block_returns_tagged_residues no_water_parser
              first_seen (Py.readlines ex_block) false
              [handed "LIG1" LIG1_block])
    as (fa & fb & na & nb & names & kept & Hh & Hsub & HF).
  - vm_compute. reflexivity.
  - vm_compute in Hh. injection Hh as <- <- <- <- <-. by exists kept.
Defined.

Lemma update_bonds_and_charges_ends_in_SanitizeMol_witness :
  update_bonds_and_charges valence_table bond_sum_valence accept_all
                           formaldehyde
  = accept_all (final (repair_pass valence_table bond_sum_valence
                                   formaldehyde)).
Proof.
  apply (update_bonds_and_charges_ends_in_SanitizeMol valence_table
           bond_sum_valence accept_all formaldehyde).
  exact valence_table_nonempty.
Defined.

(** *** What the grouping asks of the lines *)

(** X23.  The bond lines are grouped only when each of them has its three
    first fields and names two atoms of the id map: a bond line with less
    than three fields ([IndexError]) or with an atom id that no atom line
    declares ([KeyError]) makes the grouping fail. *)
Theorem assign_bonds_needs_declared_atoms bond_lines map_id_to_res :
  forall buckets bonds,
  assign_bonds bond_lines map_id_to_res buckets = Ok bonds ->
  Forall (fun line =>
            exists atom1 atom2,
              Py.split line !! 1%nat = Some atom1
              /\ Py.split line !! 2%nat = Some atom2
              /\ is_Some (map_id_to_res !! atom1)
              /\ is_Some (map_id_to_res !! atom2)) bond_lines.
Proof.
  induction bond_lines as [|line ls IH]; intros buckets bonds; simpl.
  - constructor.
  - rewrite getitem_1, getitem_2. unfold dict_get.
    destruct (Py.split line !! 1%nat) as [atom1|] eqn:E1; simpl; [|done].
    destruct (Py.split line !! 2%nat) as [atom2|] eqn:E2; simpl; [|done].
    destruct (map_id_to_res !! atom1) as [res1|] eqn:R1; simpl; [|done].
    destruct (map_id_to_res !! atom2) as [res2|] eqn:R2; simpl; [|done].
    intros Hb. constructor.
    + exists atom1, atom2. rewrite R1, R2. by repeat split.
    + destruct (String.eqb res1 res2); [|by eapply IH].
      destruct (buckets !! res1); simpl in Hb; [by eapply IH | done].
Qed.

(** X24.  The id map built from the atom lines sends an atom id to the
    residue named by the last atom line that carries this id: when two atom
    lines share an id, the later one wins. *)
Theorem assign_atoms_maps_id_to_last_residue atom_lines :
  forall buckets map_id_to_res atoms map_id_to_res',
  assign_atoms atom_lines buckets map_id_to_res = Ok (atoms, map_id_to_res') ->
  forall id,
    map_id_to_res' !! id
    = match last (filter (fun line => Py.split line !! 0%nat = Some id)
                         atom_lines) with
      | Some line => residue_of_line line
      | None => map_id_to_res !! id
      end.
Proof.
  induction atom_lines as [|line ls IH];
    intros buckets map atoms map'; simpl.
  - by intros [= _ <-].
  - rewrite getitem_0, getitem_7. unfold dict_get.
    destruct (Py.split line !! 0%nat) as [atom_id|] eqn:E0; simpl; [|done].
    destruct (Py.split line !! 7%nat) as [name|] eqn:E7; simpl; [|done].
    destruct (buckets !! name) as [bucket|]; simpl; [|done].
    intros Ha id. rewrite (IH _ _ _ _ Ha id).
    destruct (decide (atom_id = id)) as [->|Hne].
    + rewrite filter_cons_True by done.
      destruct (filter _ ls) as [|l0 F] eqn:EF.
      * simpl. rewrite lookup_insert_eq. unfold residue_of_line. by rewrite E7.
      * change (last (line :: l0 :: F)) with (last (l0 :: F)).
        destruct (last (l0 :: F)) eqn:EL; [done|]. by apply last_None in EL.
    + rewrite filter_cons_False by congruence.
      by rewrite lookup_insert_ne.
Qed.

Lemma assign_bonds_needs_declared_atoms_witness :
  Forall (fun line =>
            exists atom1 atom2,
              Py.split line !! 1%nat = Some atom1
              /\ Py.split line !! 2%nat = Some atom2
              /\ is_Some (ex_map_id_to_res !! atom1)
              /\ is_Some (ex_map_id_to_res !! atom2)) ex_bond_lines.
Proof.
  apply (assign_bonds_needs_declared_atoms ex_bond_lines ex_map_id_to_res
           (empty_buckets ["LIG1"; "WAT1"])
           (list_to_map [("LIG1", ["1 5 6 1" +:+ nl]);
                         ("WAT1", ["3 9 10 1" +:+ nl])])).
  vm_compute. reflexivity.
Defined.

Lemma assign_atoms_maps_id_to_last_residue_witness :
  (list_to_map [("5", "WAT1")] : gmap string string) !! "5"
  = match last (filter (fun line => Py.split line !! 0%nat = Some "5")
                  ["5 C1 0.0 0.0 0.0 C.3 1 LIG1 0.0" +:+ nl;
                   "5 O 4.0 1.0 0.0 O.3 2 WAT1 0.0" +:+ nl]) with
    | Some line => residue_of_line line
    | None => (∅ : gmap string string) !! "5"
    end.
Proof.
  apply (assign_atoms_maps_id_to_last_residue
           ["5 C1 0.0 0.0 0.0 C.3 1 LIG1 0.0" +:+ nl;
            "5 O 4.0 1.0 0.0 O.3 2 WAT1 0.0" +:+ nl]
           (empty_buckets ["LIG1"; "WAT1"]) ∅
           (list_to_map
              [("LIG1", ["5 C1 0.0 0.0 0.0 C.3 1 LIG1 0.0" +:+ nl]);
               ("WAT1", ["5 O 4.0 1.0 0.0 O.3 2 WAT1 0.0" +:+ nl])])
           (list_to_map [("5", "WAT1")])).
  vm_compute. reflexivity.
Defined.

(** *** One edit per atom *)

Section RepairOneEdit.

Variable GetValenceList : Z -> list Z.
Variable perceive_valence : Mol -> nat -> Z.

Local Notation "'UPC'" := (UpdatePropertyCache perceive_valence).

Lemma neighbors_loop_one_edit m a es len rest : forall i,
  (i + length rest = len + 1)%nat ->
  (forall n, n ∈ rest -> n ∈ GetNeighbors m a) ->
  let o := neighbors_loop GetValenceList perceive_valence m a es len i rest in
  o = Returned m
  \/ o = Returned (UPC m)
  \/ o = Raised IndexError m
  \/ (exists e0 es', es = e0 :: es'
        /\ o = Returned (UPC (SetFormalCharge m a (- e0))))
  \/ (exists n b t, n ∈ GetNeighbors m a
        /\ GetBondBetweenAtoms m a n = Some b
        /\ (t = DOUBLE \/ t = TRIPLE)
        /\ o = Returned (UPC (SetBondType m b t))).
Proof.
  induction rest as [|n rest IH]; intros i Hlen Hin; simpl; [by left|].
  simpl in Hlen.
  destruct (common_electrons es (electrons_of GetValenceList m n)) as [k|].
  - destruct (k =? 0).
    + apply IH; [lia|]. intros x Hx. apply Hin. by right.
    + destruct (GetBondBetweenAtoms_neighbor m a n) as (b & bd & Hb & _);
        [apply Hin; left|].
      unfold upgrade_bond. rewrite Hb.
      destruct (k =? 1).
      { do 4 right. exists n, b, DOUBLE. repeat split; auto. apply Hin. left. }
      destruct (k =? 2); [|by right; left].
      do 4 right. exists n, b, TRIPLE. repeat split; auto. apply Hin. left.
  - destruct (i =? len)%nat eqn:Ei.
    + apply Nat.eqb_eq in Ei. destruct rest; [|simpl in Hlen; lia].
      destruct es as [|e0 es']; [by right; right; left|]. simpl.
      right. right. right. left. by exists e0, es'.
    + apply IH; [apply Nat.eqb_neq in Ei; lia|].
      intros x Hx. apply Hin. by right.
Qed.

(** X25.  Processing an atom makes at most one edit: the molecule comes
    back as it was, or with its cache refreshed, or with a formal charge set
    on that atom, or with one bond between that atom and one of its neighbors
    set to DOUBLE or TRIPLE (the cache refreshed after the edit); or
    [IndexError] is raised and the molecule is as it was. *)
Theorem process_atom_makes_at_most_one_edit m a :
  let o := process_atom GetValenceList perceive_valence m a in
  o = Returned m
  \/ o = Returned (UPC m)
  \/ o = Raised IndexError m
  \/ (exists c, o = Returned (UPC (SetFormalCharge m a c)))
  \/ (exists n b t, n ∈ GetNeighbors m a
        /\ GetBondBetweenAtoms m a n = Some b
        /\ (t = DOUBLE \/ t = TRIPLE)
        /\ o = Returned (UPC (SetBondType m b t))).
Proof.
  unfold process_atom. destruct (_ && _).
  - right. right. right. left. by eexists.
  - destruct (neighbors_loop_one_edit m a (electrons_of GetValenceList m a)
                (length (GetNeighbors m a)) (GetNeighbors m a) 1)
      as [H|[H|[H|[(e0 & es' & _ & H)|H]]]]; [lia | done | ..]; simpl in *.
    + by left.
    + by right; left.
    + by right; right; left.
    + right. right. right. left. by eexists.
    + by do 4 right.
Qed.

End RepairOneEdit.

(** *** A residue that the parser refuses *)

Section Mol2Refusal.

Context {M : Type}.
Variable parse : string -> bool -> bool -> option (RDMol M).
Variable set_iter : list string -> list string.

Lemma assign_atoms_lookup atom_lines :
  forall buckets map_id_to_res atoms map_id_to_res',
  assign_atoms atom_lines buckets map_id_to_res = Ok (atoms, map_id_to_res') ->
  forall r, atoms !! r
    = (fun l0 => l0 ++ filter (fun line => residue_of_line line = Some r)
                              atom_lines) <$> buckets !! r.
Proof.
  induction atom_lines as [|line ls IH]; intros buckets map atoms map'; simpl.
  - intros [= <- <-] r. destruct (buckets !! r); simpl; by rewrite ?app_nil_r.
  - rewrite getitem_7, getitem_0. unfold dict_get.
    destruct (Py.split line !! 0%nat) as [atom_id|] eqn:E0; simpl; [|done].
    destruct (Py.split line !! 7%nat) as [name|] eqn:E7; simpl; [|done].
    destruct (buckets !! name) as [bucket|] eqn:Hbucket; simpl; [|done].
    intros Ha r. rewrite (IH _ _ _ _ Ha).
    destruct (decide (r = name)) as [->|Hne].
    + rewrite lookup_insert_eq, Hbucket. simpl.
      rewrite filter_cons_True by done. by rewrite <- app_assoc.
    + rewrite lookup_insert_ne by done.
      rewrite filter_cons_False; [done|].
      unfold residue_of_line. rewrite E7. congruence.
Qed.

(** One turn of the loop over the residue names: the block of the name is
    synthesized, and the parser decides whether a residue is appended. *)
Lemma build_residues_cons name names atoms bonds ignoreH acc :
  build_residues parse (name :: names) atoms bonds ignoreH acc
  = text ← residue_block atoms bonds name;
    build_residues parse names atoms bonds ignoreH
      (acc ++ option_list (parse_residue parse ignoreH name text)).
Proof.
  simpl. unfold residue_block, parse_residue.
  destruct (dict_get atoms name) as [atom_lines|]; simpl; [|done].
  destruct (renumber_atoms 0 atom_lines ∅ []) as [[map_atoms new_atoms]|];
    simpl; [|done].
  destruct (dict_get bonds name) as [bond_lines|]; simpl; [|done].
  destruct (renumber_bonds 0 bond_lines map_atoms []) as [new_bonds|];
    simpl; [|done].
  destruct (parse _ true ignoreH); simpl; [done | by rewrite app_nil_r].
Qed.

Lemma build_residues_by_name atoms bonds ignoreH names texts : forall acc,
  Forall2 (fun name text => residue_block atoms bonds name = Ok text)
          names texts ->
  build_residues parse names atoms bonds ignoreH acc
  = Ok (acc ++ omap (fun nt => parse_residue parse ignoreH nt.1 nt.2)
                    (zip names texts)).
Proof.
  intros acc HF. revert acc.
  induction HF as [|name text names texts Hb HF IH]; intros acc.
  - simpl. by rewrite app_nil_r.
  - rewrite build_residues_cons, Hb. simpl. rewrite IH.
    destruct (parse_residue parse ignoreH name text); simpl;
      by rewrite <- ?app_assoc, ?app_nil_r.
Qed.

(** Claim C9.  Take a molecule block whose text processing raises nothing:
    the header is read, the atom lines and the bond lines are grouped into
    the buckets [atoms] and [bonds], and for every residue name that is
    iterated the block of that name is synthesized from its two buckets
    ([texts], in the order of the names).  Then, whatever the parser accepts
    or refuses, the splitter returns without an exception.  The bucket of a
    name holds the atom lines that name this residue, and the bond lines
    between two of its atoms.  The result holds, in the order of the names,
    one molecule for each name whose block the parser accepts: what the
    parser made of the block of that very name, tagged with that name.  A
    name whose block is refused gives nothing, and only such a name. *)
Theorem C9_refused_residue_is_dropped_alone block ignoreH
    first_atom_line first_bond_line num_atoms num_bonds names
    atoms map_id_to_res bonds texts :
  let atom_lines :=
    Py.slice block (Z.of_nat first_atom_line + 1)
             (Z.of_nat first_atom_line + num_atoms + 1) in
  let bond_lines :=
    Py.slice block (Z.of_nat first_bond_line + 1)
             (Z.of_nat first_bond_line + num_bonds + 1) in
  block_header block
  = Ok (first_atom_line, first_bond_line, num_atoms, num_bonds, names) ->
  assign_atoms atom_lines (empty_buckets (set_iter names)) ∅
  = Ok (atoms, map_id_to_res) ->
  assign_bonds bond_lines map_id_to_res (empty_buckets (set_iter names))
  = Ok bonds ->
  Forall2 (fun name text => residue_block atoms bonds name = Ok text)
          (set_iter names) texts ->
  let residues :=
    omap (fun nt => parse_residue parse ignoreH nt.1 nt.2)
         (zip (set_iter names) texts) in
  residues_from_block parse set_iter block ignoreH = Ok residues
  /\ (forall name, name ∈ set_iter names ->
        atoms !! name
        = Some (filter (fun line => residue_of_line line = Some name)
                       atom_lines)
        /\ bonds !! name
           = Some (filter (fun line =>
                             residue_of_bond map_id_to_res line = Some name)
                          bond_lines))
  /\ (forall i name text m,
        set_iter names !! i = Some name -> texts !! i = Some text ->
        parse text true ignoreH = Some m ->
        SetProp m "resname" name ∈ residues)
  /\ (forall x, x ∈ residues ->
        exists i name text m,
          set_iter names !! i = Some name /\ texts !! i = Some text
          /\ residue_block atoms bonds name = Ok text
          /\ parse text true ignoreH = Some m
          /\ x = SetProp m "resname" name
          /\ GetProp x "resname" = Some name)
  /\ length residues
     = length (filter (fun text => is_Some (parse text true ignoreH)) texts).
Proof.
  intros atom_lines bond_lines Hh Ha Hb HF residues.
  split; [|split; [|split; [|split]]].
  - rewrite residues_from_block_header, Hh. simpl. unfold group_and_build.
    fold atom_lines bond_lines. rewrite Ha. simpl. rewrite Hb. simpl.
    by rewrite (build_residues_by_name _ _ _ _ texts).
  - intros name Hname. split.
    + rewrite (assign_atoms_lookup _ _ _ _ _ Ha), empty_buckets_lookup.
      by rewrite decide_True.
    + rewrite (assign_bonds_buckets _ _ _ _ Hb), empty_buckets_lookup.
      by rewrite decide_True.
  - intros i name text m Hi Ht Hm. apply list_elem_of_omap.
    exists (name, text). split.
    + apply list_elem_of_lookup. exists i. rewrite lookup_zip_with, Hi. simpl.
      by rewrite Ht.
    + unfold parse_residue. simpl. by rewrite Hm.
  - intros x ([name text] & Hin & Hx)%list_elem_of_omap.
    apply list_elem_of_lookup in Hin as [i Hi].
    apply lookup_zip_with_Some in Hi as (n & t & [= <- <-] & Hn & Ht).
    unfold parse_residue in Hx. simpl in Hx.
    destruct (parse text true ignoreH) as [m|] eqn:Hm; [|done].
    injection Hx as <-. exists i, name, text, m.
    split; [done|]. split; [done|].
    split; [exact (Forall2_lookup_lr _ _ _ _ _ _ HF Hn Ht)|].
    split; [done|]. split; [done|].
    unfold GetProp, SetProp. simpl. by rewrite lookup_insert_eq.
  - subst residues. clear Hh Ha Hb. induction HF as [|name text ns ts _ _ IH].
    + done.
    + cbn [zip zip_with omap list_omap fst snd]. unfold parse_residue at 1.
      destruct (parse text true ignoreH) as [m|] eqn:Hm.
      * rewrite filter_cons_True by (rewrite Hm; by eexists).
        cbn [fmap option_fmap option_map length]. f_equal. exact IH.
      * rewrite filter_cons_False by (rewrite Hm; by intros [? ?]).
        exact IH.
Qed.

End Mol2Refusal.

Lemma C9_witness :
  residues_from_block no_water_parser first_seen (Py.readlines ex_block) false
  = Ok [handed "LIG1" LIG1_block].
Proof.
  destruct (C9_refused_residue_is_dropped_alone no_water_parser first_seen
              (Py.readlines ex_block) false 5%nat 11%nat 5 3
              ["LIG1"; "LIG1"; "LIG1"; "WAT1"; "WAT1"]
              ex_atoms ex_map_id_to_res ex_bonds [LIG1_block; WAT1_block])
    as [Hres _].
  - vm_compute. reflexivity.
  - vm_compute. reflexivity.
  - vm_compute. reflexivity.
  - repeat constructor; vm_compute; reflexivity.
  - rewrite Hres. vm_compute. reflexivity.
Defined.
